(** * The PCF operator charm: readiness gating, configuration rendering and
      plan application

    A shallow embedding of [src/charm.py] (class [PCFOperatorCharm]) and the
    properties of its specification.

    The charm is event driven.  Its handlers read a handful of collaborators
    (the workload container, the Juju model, the database and NRF relation
    libraries, the unit's address) and act on the container, the unit status
    and the framework's queue of deferred events.  What a handler reads and
    cannot change is gathered in [Charm]; what it changes is [State]; the calls
    it makes to its collaborators are recorded, in order, as a list of [call]s.
    [logger.info] has no effect that the charm can observe and is left out. *)

From stdpp Require Import base option list strings gmap fin_maps pretty.
From Stdlib Require Import Ascii String NArith.

Local Open Scope N_scope.

(** ** Strings *)

Module Str.

(** [str.split(sep)] for a separator of one character, the only way the
    charm calls it ([split(",")]): the pieces between the separators, in
    order; the empty string gives one empty piece. *)
Fixpoint split (sep : ascii) (s : string) : list string :=
  match s with
  | EmptyString => [EmptyString]
  | String c rest =>
      if Ascii.eqb c sep then EmptyString :: split sep rest
      else match split sep rest with
           | [] => [String c EmptyString]
           | piece :: pieces => String c piece :: pieces
           end
  end.

(** [sep.join(pieces)]. *)
Fixpoint join (sep : string) (pieces : list string) : string :=
  match pieces with
  | [] => EmptyString
  | [piece] => piece
  | piece :: more => piece +:+ sep +:+ join sep more
  end.

(** [c in s]. *)
Fixpoint contains (c : ascii) (s : string) : bool :=
  match s with
  | EmptyString => false
  | String d rest => Ascii.eqb d c || contains c rest
  end.

(** [bool(s)]: a string is true when it is not empty. *)
Definition truthy (s : string) : bool :=
  match s with EmptyString => false | String _ _ => true end.

Definition comma : ascii := ","%char.
Definition newline : string := String "010"%char EmptyString.
Definition dquote : string := String "034"%char EmptyString.

End Str.

(** ** Data *)

(** [ops.model.StatusBase] and its subclasses. *)
Inductive StatusBase :=
| ActiveStatus (message : string)
| BlockedStatus (message : string)
| WaitingStatus (message : string)
| MaintenanceStatus (message : string)
| UnknownStatus.

(** The four events the charm observes (see [__init__]):
    [pcf_pebble_ready], [database_relation_joined], the database library's
    [database_created] with its [uris] attribute ([Optional[str]]), and the
    NRF library's [nrf_available] with its [url]. *)
Inductive Event :=
| PebbleReadyEvent
| RelationJoinedEvent
| DatabaseCreatedEvent (uris : option string)
| NRFAvailableEvent (url : string).

(** The exceptions the handlers can raise. *)
Inductive exn :=
| RuntimeError (msg : string)
| AttributeError (attribute : string)
| KeyError (key : string)
| IndexError
| ConnectionError.

(** [ipaddress.IPv4Address]: the address as a 32-bit integer ([_ip]). *)
Record IPv4Address := { _ip : N }.

(** One entry of a layer's ["services"] dict. *)
Record Service := {
  override : string;
  startup : string;
  command : string;
  environment : gmap string string
}.

(** [ops.pebble.Layer]. *)
Record Layer := {
  summary : string;
  description : string;
  services : gmap string Service
}.

(** What a handler reads of its collaborators: [self._container.can_connect()],
    [self.model.get_relation(name)] (the relation's id when there is one),
    [self._database.is_resource_created()], [self._database.relations] (their
    ids), [self._database.fetch_relation_data()],
    [self._nrf_requires.get_nrf_url()] ([Optional[str]]),
    [self.model.app.name], [self.model.name], and the address that
    [unit-get private-address] reports.  Each field is the answer of the call;
    nothing relates one answer to another.  Of the collaborators' own failures
    one is modelled: a push to a container that cannot be reached raises
    [ConnectionError].  The others (a push that fails on a reachable
    container, an address lookup that fails, several relations under one
    name) are left out, as section 7 of the spec leaves them to the
    collaborator boundary; the theorems are about runs in which those calls
    answer. *)
Record Charm := {
  can_connect : bool;
  get_relation : gmap string nat;
  is_resource_created : bool;
  relations : list nat;
  fetch_relation_data : gmap nat (gmap string string);
  get_nrf_url : option string;
  app_name : string;
  model_name : string;
  private_address : IPv4Address
}.

(** What a handler changes: the unit status, the files and the layers of the
    container, the services it runs with the configuration each was started
    with and the number of (re)starts so far, and the events the handlers
    have deferred, in the order of their [defer()] calls.  What the framework
    does with a deferred event afterwards (it delivers it again, and forgets it
    once a run for it does not defer it again) is not the charm's code and is
    not modelled: [deferred] records the deferrals made. *)
Record State := {
  unit_status : StatusBase;
  files : gmap string string;
  layers : list (string * Layer);
  running : gmap string Service;
  starts : nat;
  deferred : list Event
}.

(** The calls a handler makes to its collaborators. *)
Inductive call :=
| Set_status (status : StatusBase)
| Call_defer (event : Event)
| Call_render (nrf_url : option string) (pcf_hostname database_name database_url : string)
| Call_push (path source : string)
| Call_add_layer (label : string) (layer : Layer) (combine : bool)
| Call_replan.

(** ** Handlers as computations

    A handler runs from a state and either returns or raises; either way it
    leaves a state and the calls it made. *)

Inductive outcome (A : Type) :=
| Return (a : A)
| Raise (e : exn).
Arguments Return {A} a.
Arguments Raise {A} e.

Record run (A : Type) := Run {
  value : outcome A;
  final : State;
  calls : list call
}.
Arguments Run {A} value final calls.
Arguments value {A} r.
Arguments final {A} r.
Arguments calls {A} r.

Definition M (A : Type) : Type := State -> run A.

Definition ret {A} (a : A) : M A := fun s => Run (Return a) s [].

Definition raise {A} (e : exn) : M A := fun s => Run (Raise e) s [].

Definition bind {A B} (m : M A) (k : A -> M B) : M B :=
  fun s =>
    let r := m s in
    match value r with
    | Return a => let r' := k a (final r) in
                  Run (value r') (final r') (calls r ++ calls r')
    | Raise e => Run (Raise e) (final r) (calls r)
    end.

Notation "x <- m ;; k" := (bind m (fun x => k))
  (at level 100, m at next level, right associativity).
Notation "m ;; k" := (bind m (fun _ => k))
  (at level 100, right associativity).

Definition get : M State := fun s => Run (Return s) s [].

Definition act (c : call) (f : State -> State) : M unit :=
  fun s => Run (Return tt) (f s) [c].

Definition lift {A} (o : outcome A) : M A := fun s => Run o s [].

#[global] Instance Service_eq_dec : EqDecision Service.
Proof. solve_decision. Defined.

#[global] Instance Layer_eq_dec : EqDecision Layer.
Proof. solve_decision. Defined.

(** ** The workload container *)

Module Pebble.

(** Modelled from the spec: Pebble is not part of the sources; the spec
    gives [applyPlan(plan, combine=true)] as an idempotent merge into the
    runtime's current plan (section 4.3, step 5).  A service that says
    [override: replace] takes the place of the one of the same name; any
    other service is merged into it field by field, the fields it sets
    winning. *)
Definition merge_service (old new : Service) : Service :=
  {| override := override new;
     startup := if Str.truthy (startup new) then startup new else startup old;
     command := if Str.truthy (command new) then command new else command old;
     environment := environment new ∪ environment old |}.

Definition combine_service (old : option Service) (new : Service) : Service :=
  if String.eqb (override new) "replace" then new
  else match old with
       | None => new
       | Some o => merge_service o new
       end.

Definition combine_entry (old new : option Service) : option Service :=
  match new with
  | Some n => Some (combine_service old n)
  | None => old
  end.

Definition combine_layer (old new : Layer) : Layer :=
  {| summary := if Str.truthy (summary new) then summary new else summary old;
     description :=
       if Str.truthy (description new) then description new else description old;
     services := merge combine_entry (services old) (services new) |}.

(** Modelled from the spec: [add_layer(label, layer, combine=True)] on the
    container's layers, kept in the order they were added: a layer with a new
    label goes last, a layer whose label is there is combined with it. *)
Fixpoint add_layer (label : string) (layer : Layer) (ls : list (string * Layer))
  : list (string * Layer) :=
  match ls with
  | [] => [(label, layer)]
  | (l, old) :: rest =>
      if String.eqb l label then (l, combine_layer old layer) :: rest
      else (l, old) :: add_layer label layer rest
  end.

Definition has_label (label : string) (ls : list (string * Layer)) : bool :=
  existsb (fun entry => String.eqb (fst entry) label) ls.

(** The plan: the services of all layers, later layers over earlier ones. *)
Definition plan (ls : list (string * Layer)) : gmap string Service :=
  foldl (fun acc entry => merge combine_entry acc (services (snd entry))) ∅ ls.

Definition enabled (p : gmap string Service) : gmap string Service :=
  filter (fun entry => startup (snd entry) = "enabled") p.

(** The services of [p] that do not run as [p] describes them. *)
Definition stale (run_now p : gmap string Service) : gmap string Service :=
  filter (fun entry => run_now !! fst entry ≠ Some (snd entry)) p.

(** Modelled from the spec: [replan()] is the plan re-evaluation with
    restart-if-needed of section 4.3, step 5: every service of the plan with
    [startup: enabled] that does not already run with the planned
    configuration is (re)started with it; the others are left alone. *)
Definition replan (s : State) : State :=
  let wanted := enabled (plan (layers s)) in
  {| unit_status := unit_status s;
     files := files s;
     layers := layers s;
     running := wanted ∪ running s;
     starts := (starts s + size (stale (running s) wanted))%nat;
     deferred := deferred s |}.

End Pebble.

Definition set_unit_status (st : StatusBase) (s : State) : State :=
  {| unit_status := st; files := files s; layers := layers s;
     running := running s; starts := starts s; deferred := deferred s |}.

Definition set_files (f : gmap string string) (s : State) : State :=
  {| unit_status := unit_status s; files := f; layers := layers s;
     running := running s; starts := starts s; deferred := deferred s |}.

Definition set_layers (ls : list (string * Layer)) (s : State) : State :=
  {| unit_status := unit_status s; files := files s; layers := ls;
     running := running s; starts := starts s; deferred := deferred s |}.

Definition set_deferred (d : list Event) (s : State) : State :=
  {| unit_status := unit_status s; files := files s; layers := layers s;
     running := running s; starts := starts s; deferred := d |}.

(** [self.unit.status = st]. *)
Definition assign_status (st : StatusBase) : M unit :=
  act (Set_status st) (set_unit_status st).

(** [event.defer()]: the framework keeps the event for redelivery. *)
Definition defer (event : Event) : M unit :=
  act (Call_defer event) (fun s => set_deferred (deferred s ++ [event]) s).

(** [self._container.push(path=..., source=...)]: the file is written when the
    container can be reached; when it cannot, the call raises
    [ConnectionError] and nothing is written.  (The other container calls of
    the charm, [exists], [add_layer] and [replan], are made only after
    [can_connect()] answered true in the same run.) *)
Definition push (self : Charm) (path source : string) : M unit :=
  if can_connect self then
    act (Call_push path source)
        (fun s => set_files (<[path := source]> (files s)) s)
  else
    fun s => Run (Raise ConnectionError) s [Call_push path source].

(** [self._container.exists(path)]. *)
Definition exists_ (path : string) : M bool :=
  s <- get ;; ret (bool_decide (is_Some (files s !! path))).

(** [self._container.add_layer(label, layer, combine=...)]; without [combine]
    a label that is already there is refused. *)
Definition add_layer (label : string) (layer : Layer) (combine : bool) : M unit :=
  s <- get ;;
  if negb combine && Pebble.has_label label (layers s)
  then raise (RuntimeError "layer already exists")
  else act (Call_add_layer label layer combine)
           (fun s => set_layers (Pebble.add_layer label layer (layers s)) s).

(** [self._container.replan()]. *)
Definition replan : M unit := act Call_replan Pebble.replan.

(** ** The configuration template *)

Module Template.

Definition logger_entry (module_name : string) : list string :=
  [ "  " +:+ module_name +:+ ":";
    "    ReportCaller: false";
    "    debugLevel: info" ].

Definition logger_modules : list string :=
  [ "AMF"; "AUSF"; "Aper"; "CommonConsumerTest"; "FSM"; "MongoDBLibrary";
    "N3IWF"; "NAS"; "NGAP"; "NRF"; "NamfComm"; "NamfEventExposure";
    "NsmfPDUSession"; "NudrDataRepository"; "OpenApi"; "PCF"; "PFCP";
    "PathUtil"; "SMF"; "UDM"; "UDR"; "WEBUI" ].

(** Modelled from the spec: the template [src/templates/pcfcfg.conf.j2] is
    not among the sources.  Its lines are those of the document that
    [tests/unit/test_charm.py] expects [push] to receive (the same keys as
    the outbound artifact of section 6 of the spec), with the four values
    that [_write_config_file] hands to [render] in their places. *)
Definition pcfcfg_conf_j2 (nrf_url pcf_hostname database_name database_url : string)
  : list string :=
  [ "configuration:";
    "  defaultBdtRefId: BdtPolicyId-";
    "  mongodb:";
    "    name: " +:+ database_name;
    "    url: " +:+ database_url;
    "  nrfUri: " +:+ nrf_url;
    "  pcfName: PCF";
    "  plmnList:";
    "  - plmnId:";
    "      mcc: " +:+ Str.dquote +:+ "208" +:+ Str.dquote;
    "      mnc: " +:+ Str.dquote +:+ "93" +:+ Str.dquote;
    "  - plmnId:";
    "      mcc: " +:+ Str.dquote +:+ "333" +:+ Str.dquote;
    "      mnc: " +:+ Str.dquote +:+ "88" +:+ Str.dquote;
    "  sbi:";
    "    bindingIPv4: 0.0.0.0";
    "    port: 29507";
    "    registerIPv4: " +:+ pcf_hostname;
    "    scheme: http";
    "  serviceList:";
    "  - serviceName: npcf-am-policy-control";
    "  - serviceName: npcf-smpolicycontrol";
    "    suppFeat: 3fff";
    "  - serviceName: npcf-bdtpolicycontrol";
    "  - serviceName: npcf-policyauthorization";
    "    suppFeat: 3";
    "  - serviceName: npcf-eventexposure";
    "  - serviceName: npcf-ue-policy-control";
    "info:";
    "  description: PCF initial local configuration";
    "  version: 1.0.0";
    "logger:" ]
  ++ flat_map logger_entry logger_modules.

(** How Jinja prints a value that is a string or [None]. *)
Definition to_str (v : option string) : string :=
  match v with Some s => s | None => "None" end.

(** Modelled from the spec: Jinja's [template.render(nrf_url=...,
    pcf_hostname=..., database_name=..., database_url=...)] is not part of the
    sources.  As section 4.2 of the spec has it, the rendering is a pure
    function of the values handed to it: the lines of the template with the
    values in their places, joined by newlines. *)
Definition render (nrf_url : option string)
    (pcf_hostname database_name database_url : string) : string :=
  Str.join Str.newline
    (pcfcfg_conf_j2 (to_str nrf_url) pcf_hostname database_name database_url).

End Template.

(** ** The charm *)

Definition BASE_CONFIG_PATH : string := "/etc/pcf".
Definition CONFIG_FILE_NAME : string := "pcfcfg.conf".
Definition DATABASE_NAME : string := "free5gc".

Definition config_path : string := BASE_CONFIG_PATH +:+ "/" +:+ CONFIG_FILE_NAME.

(** [str(address)] for an [IPv4Address]: its four octets, most significant
    first, in decimal with dots between. *)
Definition IPv4Address_str (a : IPv4Address) : string :=
  let octet (i : N) := pretty (N.land (N.shiftr (_ip a) (8 * (3 - i))) 255) in
  octet 0 +:+ "." +:+ octet 1 +:+ "." +:+ octet 2 +:+ "." +:+ octet 3.

(** [event.uris], [event.url]: the attribute of the event that has it. *)
Definition event_uris (event : Event) : outcome (option string) :=
  match event with
  | DatabaseCreatedEvent uris => Return uris
  | _ => Raise (AttributeError "uris")
  end.

Definition event_url (event : Event) : outcome string :=
  match event with
  | NRFAvailableEvent url => Return url
  | _ => Raise (AttributeError "url")
  end.

(** [v.split(",")[0]] for [v] a string or [None]. *)
Definition split_comma_first (v : option string) : outcome string :=
  match v with
  | None => Raise (AttributeError "split")
  | Some s =>
      match Str.split Str.comma s with
      | [] => Raise IndexError
      | first :: _ => Return first
      end
  end.

(** [d[key]]. *)
Definition getitem (d : gmap string string) (key : string) : outcome string :=
  match d !! key with
  | Some v => Return v
  | None => Raise (KeyError key)
  end.

Definition _pcf_hostname (self : Charm) : string :=
  app_name self +:+ "." +:+ model_name self +:+ ".svc.cluster.local".

Definition _pod_ip (self : Charm) : IPv4Address := private_address self.

Definition _environment_variables (self : Charm) : gmap string string :=
  list_to_map
    [ ("GRPC_GO_LOG_VERBOSITY_LEVEL", "99");
      ("GRPC_GO_LOG_SEVERITY_LEVEL", "info");
      ("GRPC_TRACE", "all");
      ("GRPC_VERBOSITY", "debug");
      ("POD_IP", IPv4Address_str (_pod_ip self));
      ("MANAGED_BY_CONFIG_POD", "true") ].

Definition _pebble_layer (self : Charm) : Layer :=
  {| summary := "pcf layer";
     description := "pebble config layer for pcf";
     services :=
       {[ "pcf" :=
            {| override := "replace";
               startup := "enabled";
               command := "./pcf --pcfcfg " +:+ BASE_CONFIG_PATH +:+ "/" +:+ CONFIG_FILE_NAME;
               environment := _environment_variables self |} ]} |}.

Definition _relation_created (self : Charm) (relation_name : string) : bool :=
  match get_relation self !! relation_name with
  | None => false
  | Some _ => true
  end.

Definition _database_relation_is_created (self : Charm) : bool :=
  _relation_created self "database".

Definition _nrf_relation_is_created (self : Charm) : bool :=
  _relation_created self "nrf".

Definition _nrf_data_is_available (self : Charm) : bool :=
  match get_nrf_url self with
  | None => false
  | Some url => Str.truthy url
  end.

Definition _database_is_available (self : Charm) : bool :=
  is_resource_created self.

Definition _database_data (self : Charm) : outcome (gmap string string) :=
  if negb (_database_is_available self)
  then Raise (RuntimeError "Database is not available")
  else match relations self with
       | [] => Raise IndexError
       | first :: _ =>
           match fetch_relation_data self !! first with
           | None => Raise (KeyError (pretty first))
           | Some data => Return data
           end
       end.

Definition _config_file_is_written (self : Charm) : M bool :=
  exists_ config_path.

Definition _write_config_file (self : Charm)
    (default_database_url : string) (nrf_url : option string) : M unit :=
  let content :=
    Template.render nrf_url (_pcf_hostname self) DATABASE_NAME default_database_url in
  act (Call_render nrf_url (_pcf_hostname self) DATABASE_NAME default_database_url) id ;;
  push self config_path content.

Definition _on_pcf_pebble_ready (self : Charm) (event : Event) : M unit :=
  if negb (_database_relation_is_created self) then
    assign_status (BlockedStatus "Waiting for database relation to be created")
  else if negb (_nrf_relation_is_created self) then
    assign_status (BlockedStatus "Waiting for NRF relation to be created")
  else if negb (can_connect self) then
    assign_status (WaitingStatus "Waiting for container to be ready") ;;
    defer event
  else
    written <- _config_file_is_written self ;;
    if negb written then
      assign_status (WaitingStatus "Waiting for config file to be written")
    else
      add_layer "pcf" (_pebble_layer self) true ;;
      replan ;;
      assign_status (ActiveStatus "").

Definition _on_database_created (self : Charm) (event : Event) : M unit :=
  if negb (can_connect self) then
    assign_status (WaitingStatus "Waiting for container to be ready") ;;
    defer event
  else if negb (_nrf_relation_is_created self) then
    assign_status (BlockedStatus "Waiting for NRF relation to be created") ;;
    defer event
  else if negb (_nrf_data_is_available self) then
    assign_status (WaitingStatus "Waiting for NRF data to be available") ;;
    defer event
  else
    uris <- lift (event_uris event) ;;
    default_database_url <- lift (split_comma_first uris) ;;
    _write_config_file self default_database_url (get_nrf_url self) ;;
    _on_pcf_pebble_ready self event.

Definition _on_nrf_available (self : Charm) (event : Event) : M unit :=
  if negb (can_connect self) then
    assign_status (WaitingStatus "Waiting for container to be ready") ;;
    defer event
  else if negb (_database_relation_is_created self) then
    assign_status (BlockedStatus "Waiting for database relation to be created") ;;
    defer event
  else if negb (_database_is_available self) then
    assign_status (WaitingStatus "Waiting for database to be available") ;;
    defer event
  else
    data <- lift (_database_data self) ;;
    uris <- lift (getitem data "uris") ;;
    default_database_url <- lift (split_comma_first (Some uris)) ;;
    url <- lift (event_url event) ;;
    _write_config_file self default_database_url (Some url) ;;
    _on_pcf_pebble_ready self event.

(** The observers registered in [__init__]: which handler an event goes to. *)
Definition emit (self : Charm) (event : Event) : M unit :=
  match event with
  | PebbleReadyEvent => _on_pcf_pebble_ready self event
  | RelationJoinedEvent => _on_pcf_pebble_ready self event
  | DatabaseCreatedEvent _ => _on_database_created self event
  | NRFAvailableEvent _ => _on_nrf_available self event
  end.

(** A sequence of deliveries: each event comes with what the collaborators
    answer while it is handled.  The state a handler leaves, whether it
    returned or raised, is the one the next starts from; the result lists, per
    delivery, the calls made.  A redelivery of a deferred event is one more
    delivery of the sequence; the framework's own queue is not modelled. *)
Fixpoint deliver (steps : list (Charm * Event)) (s : State)
  : list (Charm * Event * list call) * State :=
  match steps with
  | [] => ([], s)
  | (self, event) :: rest =>
      let r := emit self event s in
      let '(log, s') := deliver rest (final r) in
      ((self, event, calls r) :: log, s')
  end.

(** ** Notions used in the statements *)

(** The state the success branch of [_on_pcf_pebble_ready] leaves. *)
Definition applied (self : Charm) (s : State) : State :=
  set_unit_status (ActiveStatus "")
    (Pebble.replan
       (set_layers (Pebble.add_layer "pcf" (_pebble_layer self) (layers s)) s)).

Definition applied_calls (self : Charm) : list call :=
  [Call_add_layer "pcf" (_pebble_layer self) true; Call_replan;
   Set_status (ActiveStatus "")].

Definition document (self : Charm) (database_url : string) (nrf_url : option string)
  : string :=
  Template.render nrf_url (_pcf_hostname self) DATABASE_NAME database_url.

Definition write_calls (self : Charm) (database_url : string) (nrf_url : option string)
  : list call :=
  [Call_render nrf_url (_pcf_hostname self) DATABASE_NAME database_url;
   Call_push config_path (document self database_url nrf_url)].

Definition with_document (doc : string) (s : State) : State :=
  set_files (<[config_path := doc]> (files s)) s.

(** What the two data-changed handlers do once their guards have passed. *)
Definition write_and_reconcile (self : Charm) (event : Event)
    (u : string) (n : option string) : M unit :=
  _write_config_file self u n ;; _on_pcf_pebble_ready self event.

(** The status assigned last among the calls of a run. *)
Fixpoint assigned (cs : list call) : option StatusBase :=
  match cs with
  | [] => None
  | c :: rest =>
      match assigned rest with
      | Some st => Some st
      | None => match c with Set_status st => Some st | _ => None end
      end
  end.

Definition reported (st : StatusBase) : Prop :=
  match st with
  | ActiveStatus _ | BlockedStatus _ | WaitingStatus _ => True
  | MaintenanceStatus _ | UnknownStatus => False
  end.

Definition holds_back (st : StatusBase) : Prop :=
  match st with
  | BlockedStatus _ | WaitingStatus _ => True
  | _ => False
  end.

(** A run that assigned a status, left it as the unit's status, and whose
    status agrees with what it did: Active exactly when it replanned, and
    Blocked or Waiting when it deferred the event. *)
Definition reports (event : Event) (r : run unit) : Prop :=
  exists st,
    assigned (calls r) = Some st
    /\ unit_status (final r) = st
    /\ reported st
    /\ (st = ActiveStatus "" <-> In Call_replan (calls r))
    /\ (In (Call_defer event) (calls r) -> holds_back st).

(** What the handler of [event] has checked, and where its two values come
    from, when it renders with [nrf_url] and [database_url]: the container is
    reachable and the other dependency is established and has its data; the
    database URL is the first comma-separated piece of the event's [uris]
    (database-created) or of the relation data's [uris] (NRF-available), and
    the registry URL is what the NRF library reports (database-created) or the
    event's [url] (NRF-available).  The other two events never render. *)
Definition write_guard (self : Charm) (event : Event)
    (nrf_url : option string) (database_url : string) : Prop :=
  can_connect self = true
  /\ match event with
     | DatabaseCreatedEvent uris =>
         _nrf_relation_is_created self = true
         /\ _nrf_data_is_available self = true
         /\ nrf_url = get_nrf_url self
         /\ split_comma_first uris = Return database_url
     | NRFAvailableEvent url =>
         _database_relation_is_created self = true
         /\ _database_is_available self = true
         /\ nrf_url = Some url
         /\ exists data uris,
              _database_data self = Return data
              /\ data !! "uris" = Some uris
              /\ split_comma_first (Some uris) = Return database_url
     | PebbleReadyEvent | RelationJoinedEvent => False
     end.

(** A call that writes is a guarded rendering or the push of its result to the
    configuration path. *)
Definition guarded (self : Charm) (event : Event) (c : call) : Prop :=
  match c with
  | Call_render n h d u =>
      write_guard self event n u /\ h = _pcf_hostname self /\ d = DATABASE_NAME
  | Call_push path source =>
      path = config_path
      /\ exists n u, source = document self u n /\ write_guard self event n u
  | _ => True
  end.

Definition writes (c : call) : Prop :=
  match c with
  | Call_render _ _ _ _ | Call_push _ _ => True
  | _ => False
  end.

(** The reading that fails: whenever the renderer is invoked, the container is
    reachable, the database URI it receives is not empty and the registry URL
    it receives is not empty. *)
Definition written_only_with_full_data : Prop :=
  forall (steps : list (Charm * Event)) (s : State),
    Forall (fun step =>
              forall n h d u, In (Call_render n h d u) step.2 ->
                can_connect step.1.1 = true
                /\ u <> EmptyString
                /\ exists url, n = Some url /\ url <> EmptyString)
           (deliver steps s).1.

(** ** Worked inputs

    The setting of the unit tests: application [pcf-operator] in model
    [whatever], the database relation with its [uris], the NRF relation with
    its URL. *)

Definition related_charm (reachable : bool) (names : gmap string nat) : Charm :=
  {| can_connect := reachable;
     get_relation := names;
     is_resource_created := true;
     relations := [0%nat];
     fetch_relation_data :=
       {[ 0%nat := {[ "username" := "banana"; "password" := "pizza";
                      "uris" := "http://6.6.6.6" ]} ]};
     get_nrf_url := Some "http://1.1.1.1";
     app_name := "pcf-operator";
     model_name := "whatever";
     private_address := {| _ip := 16843009 |} |}.

Definition both_relations : gmap string nat :=
  {[ "database" := 0%nat; "nrf" := 1%nat ]}.

Definition database_only : gmap string nat := {[ "database" := 0%nat ]}.

Definition nrf_only : gmap string nat := {[ "nrf" := 1%nat ]}.

Definition fresh_state : State :=
  {| unit_status := MaintenanceStatus "";
     files := ∅;
     layers := [];
     running := ∅;
     starts := 0;
     deferred := [] |}.

Definition written_state : State :=
  set_files {[ config_path := "configuration: {}" ]} fresh_state.

Definition unavailable_charm : Charm :=
  {| can_connect := true;
     get_relation := database_only;
     is_resource_created := false;
     relations := [0%nat];
     fetch_relation_data := {[ 0%nat := ∅ ]};
     get_nrf_url := None;
     app_name := "pcf-operator";
     model_name := "whatever";
     private_address := {| _ip := 16843009 |} |}.

(** * Properties *)

(** ** Splitting and joining *)

Section Split.

Variable sep : ascii.

Lemma split_not_nil (s : string) : Str.split sep s ≠ [].
Proof.
  induction s as [|c rest IH]; simpl; [discriminate|].
  destruct (Ascii.eqb c sep); [discriminate|].
  destruct (Str.split sep rest); [contradiction | discriminate].
Qed.

Lemma split_free (u : string) :
  Str.contains sep u = false -> Str.split sep u = [u].
Proof.
  induction u as [|c rest IH]; simpl; [reflexivity|].
  intros H. apply orb_false_iff in H as [Hc Hrest].
  rewrite Hc, (IH Hrest). reflexivity.
Qed.

Lemma split_before_sep (u t : string) :
  Str.contains sep u = false ->
  Str.split sep (u +:+ String sep t) = u :: Str.split sep t.
Proof.
  induction u as [|c rest IH]; simpl.
  - intros _. rewrite Ascii.eqb_refl. reflexivity.
  - intros H. apply orb_false_iff in H as [Hc Hrest].
    rewrite Hc, (IH Hrest). reflexivity.
Qed.

Lemma split_join_first (u : string) (us : list string) :
  Str.contains sep u = false ->
  exists others,
    Str.split sep (Str.join (String sep EmptyString) (u :: us)) = u :: others.
Proof.
  intros Hu. destruct us as [|v vs].
  - exists []. simpl. apply split_free, Hu.
  - exists (Str.split sep (Str.join (String sep EmptyString) (v :: vs))).
    change (Str.join (String sep EmptyString) (u :: v :: vs))
      with (u +:+ String sep (Str.join (String sep EmptyString) (v :: vs))).
    apply split_before_sep, Hu.
Qed.

End Split.

Lemma split_comma_first_join (u : string) (us : list string) :
  Str.contains Str.comma u = false ->
  split_comma_first (Some (Str.join "," (u :: us))) = Return u.
Proof.
  intros Hu. unfold split_comma_first.
  destruct (split_join_first Str.comma u us Hu) as [others Hsplit].
  change (String Str.comma EmptyString) with ","%string in Hsplit.
  rewrite Hsplit. reflexivity.
Qed.

Lemma split_comma_first_returns (s : string) :
  exists first, split_comma_first (Some s) = Return first.
Proof.
  unfold split_comma_first.
  destruct (Str.split Str.comma s) as [|first others] eqn:E.
  - exfalso. exact (split_not_nil _ _ E).
  - exists first. reflexivity.
Qed.

(** ** The container's plan *)

Section PebbleFacts.

Import Pebble.

Lemma merge_service_same (n : Service) : merge_service n n = n.
Proof.
  destruct n as [o st c e]. unfold merge_service; simpl.
  f_equal.
  - destruct (Str.truthy st); reflexivity.
  - destruct (Str.truthy c); reflexivity.
  - apply (idemp_L (∪)).
Qed.

Lemma merge_service_twice (o n : Service) :
  merge_service (merge_service o n) n = merge_service o n.
Proof.
  destruct o as [oo ost oc oe], n as [no nst nc ne].
  unfold merge_service; simpl. f_equal.
  - destruct (Str.truthy nst); reflexivity.
  - destruct (Str.truthy nc); reflexivity.
  - rewrite (assoc_L (∪)), (idemp_L (∪)). reflexivity.
Qed.

Lemma combine_service_twice (o : option Service) (n : Service) :
  combine_service (Some (combine_service o n)) n = combine_service o n.
Proof.
  unfold combine_service.
  destruct (String.eqb (override n) "replace"); [reflexivity|].
  destruct o; [apply merge_service_twice | apply merge_service_same].
Qed.

Lemma combine_entry_twice (o n : option Service) :
  combine_entry (combine_entry o n) n = combine_entry o n.
Proof.
  destruct n as [n|]; simpl; [|reflexivity].
  f_equal. apply combine_service_twice.
Qed.

Lemma combine_layer_twice (old new : Layer) :
  combine_layer (combine_layer old new) new = combine_layer old new.
Proof.
  unfold combine_layer; simpl. f_equal.
  - destruct (Str.truthy (summary new)); reflexivity.
  - destruct (Str.truthy (description new)); reflexivity.
  - apply map_eq; intros i. rewrite !lookup_merge.
    destruct (services old !! i) as [o|], (services new !! i) as [n|]; simpl;
      try reflexivity; f_equal.
    + apply (combine_service_twice (Some o)).
    + apply (combine_service_twice None).
Qed.

Lemma combine_layer_same (l : Layer) : combine_layer l l = l.
Proof.
  destruct l as [su de sv]. unfold combine_layer; simpl. f_equal.
  - destruct (Str.truthy su); reflexivity.
  - destruct (Str.truthy de); reflexivity.
  - apply map_eq; intros i. rewrite lookup_merge.
    destruct (sv !! i) as [n|]; simpl; [|reflexivity].
    f_equal. unfold combine_service.
    destruct (String.eqb (override n) "replace");
      [reflexivity | apply merge_service_same].
Qed.

(** Adding the same layer under the same label a second time changes
    nothing. *)
Lemma add_layer_twice (label : string) (layer : Layer) (ls : list (string * Layer)) :
  add_layer label layer (add_layer label layer ls) = add_layer label layer ls.
Proof.
  induction ls as [|[l old] rest IH]; simpl.
  - rewrite String.eqb_refl, combine_layer_same. reflexivity.
  - destruct (String.eqb l label) eqn:E; simpl; rewrite E.
    + rewrite combine_layer_twice. reflexivity.
    + rewrite IH. reflexivity.
Qed.

Lemma stale_after_start (now wanted : gmap string Service) :
  stale (wanted ∪ now) wanted = ∅.
Proof.
  apply map_empty; intros i. unfold stale.
  apply map_lookup_filter_None.
  destruct (wanted !! i) as [x|] eqn:E; [right | left; reflexivity].
  intros y Hy Hne; simpl in Hne. apply Hne.
  rewrite (lookup_union_Some_l _ _ _ _ E). congruence.
Qed.

(** A second [replan] right after one starts nothing. *)
Lemma replan_twice (s : State) : replan (replan s) = replan s.
Proof.
  unfold replan; simpl.
  rewrite stale_after_start, map_size_empty, (assoc_L (∪)), (idemp_L (∪)).
  f_equal. apply Nat.add_0_r.
Qed.

End PebbleFacts.

(** ** The reconciliation procedure, branch by branch *)

Arguments Template.render : simpl never.
Arguments Pebble.replan : simpl never.
Arguments Pebble.add_layer : simpl never.
Arguments _pebble_layer : simpl never.
Arguments config_path : simpl never.
Arguments split_comma_first : simpl never.
Arguments _database_data : simpl never.
Arguments getitem : simpl never.
Arguments Str.join : simpl never.

Lemma push_reachable (self : Charm) (path source : string) (s : State) :
  can_connect self = true ->
  push self path source s
  = Run (Return tt) (set_files (<[path := source]> (files s)) s)
        [Call_push path source].
Proof. intros Hcan. unfold push. rewrite Hcan. reflexivity. Qed.

Lemma push_unreachable (self : Charm) (path source : string) (s : State) :
  can_connect self = false ->
  push self path source s = Run (Raise ConnectionError) s [Call_push path source].
Proof. intros Hcan. unfold push. rewrite Hcan. reflexivity. Qed.

Lemma reconcile_no_database (self : Charm) (event : Event) (s : State) :
  _database_relation_is_created self = false ->
  let blocked := BlockedStatus "Waiting for database relation to be created" in
  _on_pcf_pebble_ready self event s
  = Run (Return tt) (set_unit_status blocked s) [Set_status blocked].
Proof. intros H. unfold _on_pcf_pebble_ready. rewrite H. reflexivity. Qed.

Lemma reconcile_no_nrf (self : Charm) (event : Event) (s : State) :
  _database_relation_is_created self = true ->
  _nrf_relation_is_created self = false ->
  let blocked := BlockedStatus "Waiting for NRF relation to be created" in
  _on_pcf_pebble_ready self event s
  = Run (Return tt) (set_unit_status blocked s) [Set_status blocked].
Proof. intros H1 H2. unfold _on_pcf_pebble_ready. rewrite H1, H2. reflexivity. Qed.

Lemma reconcile_unreachable (self : Charm) (event : Event) (s : State) :
  _database_relation_is_created self = true ->
  _nrf_relation_is_created self = true ->
  can_connect self = false ->
  let waiting := WaitingStatus "Waiting for container to be ready" in
  _on_pcf_pebble_ready self event s
  = Run (Return tt)
        (set_deferred (deferred s ++ [event]) (set_unit_status waiting s))
        [Set_status waiting; Call_defer event].
Proof.
  intros H1 H2 H3. unfold _on_pcf_pebble_ready. rewrite H1, H2, H3. reflexivity.
Qed.

Lemma reconcile_not_written (self : Charm) (event : Event) (s : State) :
  _database_relation_is_created self = true ->
  _nrf_relation_is_created self = true ->
  can_connect self = true ->
  files s !! config_path = None ->
  let waiting := WaitingStatus "Waiting for config file to be written" in
  _on_pcf_pebble_ready self event s
  = Run (Return tt) (set_unit_status waiting s) [Set_status waiting].
Proof.
  intros H1 H2 H3 H4.
  unfold _on_pcf_pebble_ready, _config_file_is_written, exists_, bind, get, ret.
  rewrite H1, H2, H3. simpl. rewrite H4.
  rewrite bool_decide_eq_false_2 by (intros [x Hx]; discriminate).
  reflexivity.
Qed.

Lemma reconcile_success (self : Charm) (event : Event) (s : State) :
  _database_relation_is_created self = true ->
  _nrf_relation_is_created self = true ->
  can_connect self = true ->
  is_Some (files s !! config_path) ->
  _on_pcf_pebble_ready self event s
  = Run (Return tt) (applied self s) (applied_calls self).
Proof.
  intros H1 H2 H3 H4.
  unfold _on_pcf_pebble_ready, _config_file_is_written, exists_, bind, get, ret.
  rewrite H1, H2, H3. simpl.
  rewrite bool_decide_eq_true_2 by exact H4.
  reflexivity.
Qed.

Lemma applied_files (self : Charm) (s : State) : files (applied self s) = files s.
Proof. reflexivity. Qed.

(** Applying the plan to a state it was just applied to changes nothing. *)
Lemma applied_twice (self : Charm) (s : State) :
  applied self (applied self s) = applied self s.
Proof.
  unfold applied.
  set (l := Pebble.add_layer "pcf" (_pebble_layer self) (layers s)).
  change (layers (set_unit_status (ActiveStatus "") (Pebble.replan (set_layers l s))))
    with l.
  assert (Hl : Pebble.add_layer "pcf" (_pebble_layer self) l = l)
    by apply add_layer_twice.
  rewrite Hl.
  assert (E : set_layers l
                (set_unit_status (ActiveStatus "") (Pebble.replan (set_layers l s)))
              = set_unit_status (ActiveStatus "") (Pebble.replan (set_layers l s)))
    by reflexivity.
  rewrite E.
  assert (R : Pebble.replan
                (set_unit_status (ActiveStatus "") (Pebble.replan (set_layers l s)))
              = set_unit_status (ActiveStatus "")
                  (Pebble.replan (Pebble.replan (set_layers l s))))
    by reflexivity.
  rewrite R, replan_twice. reflexivity.
Qed.

(** ** The reconciliation outcomes *)

(** C2: in every run of the reconciliation procedure, whichever of the four
    events it is run for, an established database relation and a missing NRF
    relation give status Blocked with the NRF-relation reason, whatever
    [can_connect] answers; nothing else changes and the event is not deferred.
    For the handlers as a whole: a run that returns either ends with that
    status or stopped in its config-write step, where it deferred the event. *)
Theorem registry_missing_blocks (self : Charm) (event : Event) (s : State) :
  _database_relation_is_created self = true ->
  _nrf_relation_is_created self = false ->
  _on_pcf_pebble_ready self event s
  = Run (Return tt)
        (set_unit_status (BlockedStatus "Waiting for NRF relation to be created") s)
        [Set_status (BlockedStatus "Waiting for NRF relation to be created")]
  /\ (value (emit self event s) = Return tt ->
      unit_status (final (emit self event s))
      = BlockedStatus "Waiting for NRF relation to be created"
      \/ exists st, calls (emit self event s) = [Set_status st; Call_defer event]).
Proof.
  intros Hdb Hnrf. split; [apply reconcile_no_nrf; assumption|].
  destruct event as [| |uris|url]; simpl.
  - rewrite reconcile_no_nrf by assumption. left; reflexivity.
  - rewrite reconcile_no_nrf by assumption. left; reflexivity.
  - unfold _on_database_created. rewrite Hnrf.
    destruct (can_connect self); simpl; [left; reflexivity | right; eauto].
  - unfold _on_nrf_available. rewrite Hdb.
    destruct (can_connect self) eqn:Hcan; simpl; [|right; eauto].
    destruct (_database_is_available self) eqn:Hav; simpl; [|right; eauto].
    unfold bind at 1. simpl.
    destruct (_database_data self) as [data|e]; simpl; [|discriminate].
    unfold bind at 1. simpl.
    destruct (getitem data "uris") as [uris|e]; simpl; [|discriminate].
    destruct (split_comma_first_returns uris) as [first Hfirst].
    unfold bind at 1. simpl. rewrite Hfirst. simpl.
    unfold bind. simpl. rewrite push_reachable by assumption. simpl.
    rewrite reconcile_no_nrf by assumption. simpl.
    intros _. left. reflexivity.
Qed.

Lemma registry_missing_blocks_witness :
  _on_pcf_pebble_ready (related_charm false database_only) PebbleReadyEvent fresh_state
  = Run (Return tt)
        (set_unit_status (BlockedStatus "Waiting for NRF relation to be created")
           fresh_state)
        [Set_status (BlockedStatus "Waiting for NRF relation to be created")].
Proof.
  apply (registry_missing_blocks (related_charm false database_only)
           PebbleReadyEvent fresh_state); reflexivity.
Defined.

(** C3: in every run of the reconciliation procedure with both relations
    established and the container unreachable, the status becomes Waiting with
    the container reason and the event that triggered the run is deferred:
    it joins the events kept for redelivery.  The same holds for each of the
    four handlers as a whole. *)
Theorem runtime_unreachable_waits_and_defers (self : Charm) (event : Event) (s : State) :
  _database_relation_is_created self = true ->
  _nrf_relation_is_created self = true ->
  can_connect self = false ->
  _on_pcf_pebble_ready self event s
  = Run (Return tt)
        (set_deferred (deferred s ++ [event])
           (set_unit_status (WaitingStatus "Waiting for container to be ready") s))
        [Set_status (WaitingStatus "Waiting for container to be ready");
         Call_defer event]
  /\ emit self event s = _on_pcf_pebble_ready self event s.
Proof.
  intros Hdb Hnrf Hcan. split; [apply reconcile_unreachable; assumption|].
  rewrite reconcile_unreachable by assumption.
  destruct event as [| |uris|url]; simpl;
    try (apply reconcile_unreachable; assumption).
  - unfold _on_database_created. rewrite Hcan. reflexivity.
  - unfold _on_nrf_available. rewrite Hcan. reflexivity.
Qed.

Lemma runtime_unreachable_waits_and_defers_witness :
  unit_status
    (final (emit (related_charm false both_relations)
              (DatabaseCreatedEvent (Some "1.2.3.4:1234")) fresh_state))
  = WaitingStatus "Waiting for container to be ready"
  /\ deferred
       (final (emit (related_charm false both_relations)
                 (DatabaseCreatedEvent (Some "1.2.3.4:1234")) fresh_state))
     = [DatabaseCreatedEvent (Some "1.2.3.4:1234")].
Proof.
  destruct (runtime_unreachable_waits_and_defers
              (related_charm false both_relations)
              (DatabaseCreatedEvent (Some "1.2.3.4:1234")) fresh_state
              eq_refl eq_refl eq_refl) as [Hrun Hemit].
  rewrite Hemit, Hrun. split; reflexivity.
Defined.

(** C4: in every run of the reconciliation procedure with both relations
    established, the container reachable and no file at the configuration
    path, the status becomes Waiting with the config-file reason, and the
    event is not deferred: the only call made is the status assignment and the
    deferred events are as before. *)
Theorem artifact_missing_waits_without_retry (self : Charm) (event : Event) (s : State) :
  _database_relation_is_created self = true ->
  _nrf_relation_is_created self = true ->
  can_connect self = true ->
  files s !! config_path = None ->
  _on_pcf_pebble_ready self event s
  = Run (Return tt)
        (set_unit_status (WaitingStatus "Waiting for config file to be written") s)
        [Set_status (WaitingStatus "Waiting for config file to be written")]
  /\ deferred (final (_on_pcf_pebble_ready self event s)) = deferred s
  /\ ~ In (Call_defer event) (calls (_on_pcf_pebble_ready self event s)).
Proof.
  intros Hdb Hnrf Hcan Hfile.
  rewrite reconcile_not_written by assumption.
  split; [reflexivity|]. split; [reflexivity|].
  simpl. intros [H|[]]. discriminate.
Qed.

Lemma artifact_missing_waits_without_retry_witness :
  emit (related_charm true both_relations) PebbleReadyEvent fresh_state
  = Run (Return tt)
        (set_unit_status (WaitingStatus "Waiting for config file to be written")
           fresh_state)
        [Set_status (WaitingStatus "Waiting for config file to be written")].
Proof.
  apply (artifact_missing_waits_without_retry (related_charm true both_relations)
           PebbleReadyEvent fresh_state); reflexivity.
Defined.

(** C7: with the configuration file already in the container, both relations
    established and the container reachable, the pebble-ready handler adds the
    charm's layer, replans and sets the status to Active, in that order and
    with no other call: nothing is pushed, and the files of the container
    (the configuration file among them) are as they were. *)
Theorem pebble_ready_applies_plan_without_writing
    (self : Charm) (s : State) (content : string) :
  _database_relation_is_created self = true ->
  _nrf_relation_is_created self = true ->
  can_connect self = true ->
  files s !! config_path = Some content ->
  let r := emit self PebbleReadyEvent s in
  value r = Return tt
  /\ calls r = [Call_add_layer "pcf" (_pebble_layer self) true; Call_replan;
                Set_status (ActiveStatus "")]
  /\ final r = applied self s
  /\ unit_status (final r) = ActiveStatus ""
  /\ layers (final r) = Pebble.add_layer "pcf" (_pebble_layer self) (layers s)
  /\ files (final r) = files s
  /\ files (final r) !! config_path = Some content
  /\ (forall path source, ~ In (Call_push path source) (calls r)).
Proof.
  intros Hdb Hnrf Hcan Hfile r. subst r. simpl.
  rewrite reconcile_success by (try assumption; rewrite Hfile; eauto).
  simpl. repeat split; try reflexivity; try assumption.
  intros path source [H|[H|[H|[]]]]; discriminate.
Qed.

Lemma pebble_ready_applies_plan_without_writing_witness :
  unit_status (final (emit (related_charm true both_relations) PebbleReadyEvent
                        written_state))
  = ActiveStatus ""
  /\ files (final (emit (related_charm true both_relations) PebbleReadyEvent
                     written_state))
     = files written_state.
Proof.
  pose proof (pebble_ready_applies_plan_without_writing
                (related_charm true both_relations) written_state
                "configuration: {}" eq_refl eq_refl eq_refl eq_refl) as H.
  cbv zeta in H. destruct H as (_ & _ & _ & Hst & _ & Hfiles & _).
  split; assumption.
Defined.

(** ** Writing the configuration file *)

Lemma write_config_file_run (self : Charm) (u : string) (n : option string) (s : State) :
  can_connect self = true ->
  _write_config_file self u n s
  = Run (Return tt) (with_document (document self u n) s) (write_calls self u n).
Proof.
  intros Hcan. unfold _write_config_file, bind. simpl.
  rewrite push_reachable by assumption. reflexivity.
Qed.

Lemma with_document_lookup (doc : string) (s : State) :
  files (with_document doc s) !! config_path = Some doc.
Proof. unfold with_document; simpl. apply lookup_insert_eq. Qed.

Lemma with_document_again (doc : string) (s : State) :
  files s !! config_path = Some doc -> with_document doc s = s.
Proof.
  intros H. unfold with_document. rewrite (insert_id _ _ _ H).
  destruct s; reflexivity.
Qed.

Lemma write_and_reconcile_success (self : Charm) (event : Event)
    (u : string) (n : option string) (s : State) :
  _database_relation_is_created self = true ->
  _nrf_relation_is_created self = true ->
  can_connect self = true ->
  write_and_reconcile self event u n s
  = Run (Return tt) (applied self (with_document (document self u n) s))
        (write_calls self u n ++ applied_calls self).
Proof.
  intros Hdb Hnrf Hcan. unfold write_and_reconcile, bind.
  rewrite write_config_file_run by assumption. simpl.
  rewrite reconcile_success; try assumption; [reflexivity|].
  rewrite with_document_lookup. eauto.
Qed.

Lemma write_and_reconcile_status (self : Charm) (event : Event)
    (u : string) (n : option string) (s : State) :
  can_connect self = true ->
  unit_status (final (write_and_reconcile self event u n s)) = ActiveStatus "" ->
  _database_relation_is_created self = true
  /\ _nrf_relation_is_created self = true.
Proof.
  intros Hcan. unfold write_and_reconcile, bind.
  rewrite write_config_file_run by assumption. simpl.
  destruct (_database_relation_is_created self) eqn:Hdb;
    [|rewrite reconcile_no_database by assumption; discriminate].
  destruct (_nrf_relation_is_created self) eqn:Hnrf;
    [|rewrite reconcile_no_nrf by assumption; discriminate].
  auto.
Qed.

Lemma write_and_reconcile_twice (self : Charm) (event : Event)
    (u : string) (n : option string) (s : State) :
  can_connect self = true ->
  unit_status (final (write_and_reconcile self event u n s)) = ActiveStatus "" ->
  write_and_reconcile self event u n (final (write_and_reconcile self event u n s))
  = write_and_reconcile self event u n s.
Proof.
  intros Hcan Hst.
  destruct (write_and_reconcile_status self event u n s Hcan Hst) as [Hdb Hnrf].
  rewrite (write_and_reconcile_success self event u n s) by assumption.
  simpl.
  rewrite write_and_reconcile_success by assumption.
  rewrite (with_document_again (document self u n)
             (applied self (with_document (document self u n) s)))
    by (rewrite applied_files; apply with_document_lookup).
  rewrite applied_twice. reflexivity.
Qed.

Lemma reconcile_twice (self : Charm) (event : Event) (s : State) :
  unit_status (final (_on_pcf_pebble_ready self event s)) = ActiveStatus "" ->
  _on_pcf_pebble_ready self event (final (_on_pcf_pebble_ready self event s))
  = _on_pcf_pebble_ready self event s.
Proof.
  destruct (_database_relation_is_created self) eqn:Hdb;
    [|rewrite reconcile_no_database by assumption; discriminate].
  destruct (_nrf_relation_is_created self) eqn:Hnrf;
    [|rewrite reconcile_no_nrf by assumption; discriminate].
  destruct (can_connect self) eqn:Hcan;
    [|rewrite reconcile_unreachable by assumption; discriminate].
  destruct (files s !! config_path) as [doc|] eqn:Hfile;
    [|rewrite reconcile_not_written by assumption; discriminate].
  intros _.
  rewrite (reconcile_success self event s) by (try assumption; rewrite Hfile; eauto).
  simpl.
  rewrite reconcile_success
    by (try assumption; rewrite applied_files, Hfile; eauto).
  rewrite applied_twice. reflexivity.
Qed.

Lemma database_created_passes (self : Charm) (event : Event) (s : State) :
  can_connect self = true ->
  _nrf_relation_is_created self = true ->
  _nrf_data_is_available self = true ->
  _on_database_created self event s
  = match event_uris event with
    | Raise e => Run (Raise e) s []
    | Return uris =>
        match split_comma_first uris with
        | Raise e => Run (Raise e) s []
        | Return u => write_and_reconcile self event u (get_nrf_url self) s
        end
    end.
Proof.
  intros Hcan Hnrf Hdata. unfold _on_database_created.
  rewrite Hcan, Hnrf, Hdata. simpl.
  unfold bind at 1. simpl.
  destruct (event_uris event) as [uris|e]; simpl; [|reflexivity].
  unfold bind at 1. simpl.
  destruct (split_comma_first uris) as [u|e]; simpl; [|reflexivity].
  unfold write_and_reconcile.
  destruct ((_write_config_file self u (get_nrf_url self) ;;
             _on_pcf_pebble_ready self event) s).
  reflexivity.
Qed.

Lemma nrf_available_passes (self : Charm) (event : Event) (s : State) :
  can_connect self = true ->
  _database_relation_is_created self = true ->
  _database_is_available self = true ->
  _on_nrf_available self event s
  = match _database_data self with
    | Raise e => Run (Raise e) s []
    | Return data =>
        match getitem data "uris" with
        | Raise e => Run (Raise e) s []
        | Return uris =>
            match split_comma_first (Some uris) with
            | Raise e => Run (Raise e) s []
            | Return u =>
                match event_url event with
                | Raise e => Run (Raise e) s []
                | Return url => write_and_reconcile self event u (Some url) s
                end
            end
        end
    end.
Proof.
  intros Hcan Hdb Hav. unfold _on_nrf_available.
  rewrite Hcan, Hdb, Hav. simpl.
  unfold bind at 1. simpl.
  destruct (_database_data self) as [data|e]; simpl; [|reflexivity].
  unfold bind at 1. simpl.
  destruct (getitem data "uris") as [uris|e]; simpl; [|reflexivity].
  unfold bind at 1. simpl.
  destruct (split_comma_first (Some uris)) as [u|e]; simpl; [|reflexivity].
  unfold bind at 1. simpl.
  destruct (event_url event) as [url|e]; simpl; [|reflexivity].
  unfold write_and_reconcile.
  destruct ((_write_config_file self u (Some url) ;;
             _on_pcf_pebble_ready self event) s).
  reflexivity.
Qed.

(** ** Idempotence of the success path *)

(** C8: when a handler run has gone through the success path (it returned and
    left the status Active), running the same handler again for the same event,
    with the collaborators answering as before, is the same run once more: it
    returns, makes the same calls, and leaves the state it started from.  In
    particular the plan, the services as they run (command, startup mode,
    environment) and the number of (re)starts are those left by the first
    run. *)
Theorem success_path_is_idempotent (self : Charm) (event : Event) (s : State) :
  let first := emit self event s in
  value first = Return tt ->
  unit_status (final first) = ActiveStatus "" ->
  let second := emit self event (final first) in
  second = first
  /\ final second = final first
  /\ Pebble.plan (layers (final second)) = Pebble.plan (layers (final first))
  /\ running (final second) = running (final first)
  /\ starts (final second) = starts (final first).
Proof.
  intros first Hret Hact second.
  assert (E : second = first).
  { subst first second. destruct event as [| |uris|url]; simpl in *.
    - apply reconcile_twice, Hact.
    - apply reconcile_twice, Hact.
    - destruct (can_connect self) eqn:Hcan;
        [|unfold _on_database_created in Hact; rewrite Hcan in Hact; discriminate].
      destruct (_nrf_relation_is_created self) eqn:Hnrf;
        [|unfold _on_database_created in Hact; rewrite Hcan, Hnrf in Hact;
          discriminate].
      destruct (_nrf_data_is_available self) eqn:Hdata;
        [|unfold _on_database_created in Hact; rewrite Hcan, Hnrf, Hdata in Hact;
          discriminate].
      rewrite !database_created_passes in * by assumption. simpl in *.
      destruct (split_comma_first uris) as [u|e]; [|discriminate].
      apply write_and_reconcile_twice; assumption.
    - destruct (can_connect self) eqn:Hcan;
        [|unfold _on_nrf_available in Hact; rewrite Hcan in Hact; discriminate].
      destruct (_database_relation_is_created self) eqn:Hdb;
        [|unfold _on_nrf_available in Hact; rewrite Hcan, Hdb in Hact;
          discriminate].
      destruct (_database_is_available self) eqn:Hav;
        [|unfold _on_nrf_available in Hact; rewrite Hcan, Hdb, Hav in Hact;
          discriminate].
      rewrite !nrf_available_passes in * by assumption. simpl in *.
      destruct (_database_data self) as [data|e]; [|discriminate].
      destruct (getitem data "uris") as [uris|e]; [|discriminate].
      destruct (split_comma_first (Some uris)) as [u|e]; [|discriminate].
      apply write_and_reconcile_twice; assumption. }
  rewrite E. repeat split; reflexivity.
Qed.

Lemma success_path_is_idempotent_witness :
  emit (related_charm true both_relations) (NRFAvailableEvent "2.2.2.2")
    (final (emit (related_charm true both_relations) (NRFAvailableEvent "2.2.2.2")
              fresh_state))
  = emit (related_charm true both_relations) (NRFAvailableEvent "2.2.2.2") fresh_state
  /\ starts (final (emit (related_charm true both_relations)
                      (NRFAvailableEvent "2.2.2.2") fresh_state)) = 1%nat.
Proof.
  split; [|vm_compute; reflexivity].
  apply (success_path_is_idempotent (related_charm true both_relations)
           (NRFAvailableEvent "2.2.2.2") fresh_state);
    vm_compute; reflexivity.
Defined.

(** ** The database payload *)

(** C9: whatever the state of the controller, [_database_data] raises
    [RuntimeError] when the database resource is not created; when it is
    created it never raises that fault, and it returns the relation data that
    the database library holds for its first relation. *)
Theorem database_data_needs_availability (self : Charm) :
  (_database_is_available self = false ->
   _database_data self = Raise (RuntimeError "Database is not available")
   /\ forall s : State,
        lift (_database_data self) s
        = Run (Raise (RuntimeError "Database is not available")) s [])
  /\ (_database_is_available self = true ->
      (forall msg, _database_data self <> Raise (RuntimeError msg))
      /\ forall first others data,
           relations self = first :: others ->
           fetch_relation_data self !! first = Some data ->
           _database_data self = Return data
           /\ forall s : State, lift (_database_data self) s = Run (Return data) s []).
Proof.
  unfold _database_data. split; intros Hav; rewrite Hav; simpl.
  - split; reflexivity.
  - split.
    + intros msg. destruct (relations self) as [|first others]; [discriminate|].
      destruct (fetch_relation_data self !! first); discriminate.
    + intros first others data Hrel Hdata. rewrite Hrel, Hdata.
      split; reflexivity.
Qed.

Lemma database_data_needs_availability_witness :
  _database_data unavailable_charm = Raise (RuntimeError "Database is not available")
  /\ _database_data (related_charm true both_relations)
     = Return {[ "username" := "banana"; "password" := "pizza";
                 "uris" := "http://6.6.6.6" ]}.
Proof.
  split.
  - apply (database_data_needs_availability unavailable_charm). reflexivity.
  - eapply (database_data_needs_availability (related_charm true both_relations));
      reflexivity.
Defined.

(** ** Every handler run reports a status *)

Ltac reports_branch :=
  eexists; simpl; repeat split; try reflexivity; simpl;
  try discriminate; intuition (try discriminate; auto).

Lemma reconcile_reports (self : Charm) (event : Event) (s : State) :
  reports event (_on_pcf_pebble_ready self event s).
Proof.
  destruct (_database_relation_is_created self) eqn:Hdb;
    [|rewrite reconcile_no_database by assumption; reports_branch].
  destruct (_nrf_relation_is_created self) eqn:Hnrf;
    [|rewrite reconcile_no_nrf by assumption; reports_branch].
  destruct (can_connect self) eqn:Hcan;
    [|rewrite reconcile_unreachable by assumption; reports_branch].
  destruct (files s !! config_path) as [doc|] eqn:Hfile;
    [|rewrite reconcile_not_written by assumption; reports_branch].
  rewrite reconcile_success by (try assumption; rewrite Hfile; eauto).
  reports_branch.
Qed.

Lemma reconcile_returns (self : Charm) (event : Event) (s : State) :
  value (_on_pcf_pebble_ready self event s) = Return tt.
Proof.
  destruct (_database_relation_is_created self) eqn:Hdb;
    [|rewrite reconcile_no_database by assumption; reflexivity].
  destruct (_nrf_relation_is_created self) eqn:Hnrf;
    [|rewrite reconcile_no_nrf by assumption; reflexivity].
  destruct (can_connect self) eqn:Hcan;
    [|rewrite reconcile_unreachable by assumption; reflexivity].
  destruct (files s !! config_path) as [doc|] eqn:Hfile;
    [|rewrite reconcile_not_written by assumption; reflexivity].
  rewrite reconcile_success by (try assumption; rewrite Hfile; eauto).
  reflexivity.
Qed.

Lemma write_and_reconcile_reports (self : Charm) (event : Event)
    (u : string) (n : option string) (s : State) :
  can_connect self = true ->
  reports event (write_and_reconcile self event u n s).
Proof.
  intros Hcan. unfold write_and_reconcile, bind. rewrite write_config_file_run by assumption. simpl.
  rewrite reconcile_returns.
  destruct (reconcile_reports self event (with_document (document self u n) s))
    as (st & Ha & Hst & Hrep & Hact & Hdef).
  exists st. simpl. rewrite Ha.
  repeat split; try assumption.
  - intros H. right. right. apply Hact, H.
  - intros [H|[H|H]]; try discriminate. apply Hact, H.
  - intros [H|[H|H]]; try discriminate. apply Hdef, H.
Qed.

(** C10: every run of each of the four handlers that returns has assigned the
    unit status, the status it leaves is the one it assigned last, and that
    status is a Blocked, a Waiting or an Active status; it is Active exactly
    when the run replanned, and Blocked or Waiting when the run deferred its
    event. *)
Theorem every_handler_run_sets_status (self : Charm) (event : Event) (s : State) :
  value (emit self event s) = Return tt ->
  exists st,
    assigned (calls (emit self event s)) = Some st
    /\ unit_status (final (emit self event s)) = st
    /\ reported st
    /\ (st = ActiveStatus "" <-> In Call_replan (calls (emit self event s)))
    /\ (In (Call_defer event) (calls (emit self event s)) -> holds_back st).
Proof.
  intros Hret. change (reports event (emit self event s)).
  destruct event as [| |uris|url]; simpl in *.
  - apply reconcile_reports.
  - apply reconcile_reports.
  - destruct (can_connect self) eqn:Hcan;
      [|unfold _on_database_created; rewrite Hcan; reports_branch].
    destruct (_nrf_relation_is_created self) eqn:Hnrf;
      [|unfold _on_database_created; rewrite Hcan, Hnrf; reports_branch].
    destruct (_nrf_data_is_available self) eqn:Hdata;
      [|unfold _on_database_created; rewrite Hcan, Hnrf, Hdata; reports_branch].
    rewrite database_created_passes in * by assumption. simpl in *.
    destruct (split_comma_first uris) as [u|e]; [|discriminate].
    apply write_and_reconcile_reports. assumption.
  - destruct (can_connect self) eqn:Hcan;
      [|unfold _on_nrf_available; rewrite Hcan; reports_branch].
    destruct (_database_relation_is_created self) eqn:Hdb;
      [|unfold _on_nrf_available; rewrite Hcan, Hdb; reports_branch].
    destruct (_database_is_available self) eqn:Hav;
      [|unfold _on_nrf_available; rewrite Hcan, Hdb, Hav; reports_branch].
    rewrite nrf_available_passes in * by assumption. simpl in *.
    destruct (_database_data self) as [data|e]; [|discriminate].
    destruct (getitem data "uris") as [uris|e]; [|discriminate].
    destruct (split_comma_first (Some uris)) as [u|e]; [|discriminate].
    apply write_and_reconcile_reports. assumption.
Qed.

Lemma every_handler_run_sets_status_witness :
  exists st,
    assigned (calls (emit (related_charm true nrf_only)
                       (DatabaseCreatedEvent (Some "1.2.3.4:1234,5.6.7.8:1111"))
                       fresh_state)) = Some st
    /\ unit_status (final (emit (related_charm true nrf_only)
                             (DatabaseCreatedEvent (Some "1.2.3.4:1234,5.6.7.8:1111"))
                             fresh_state)) = st
    /\ reported st.
Proof.
  destruct (every_handler_run_sets_status (related_charm true nrf_only)
              (DatabaseCreatedEvent (Some "1.2.3.4:1234,5.6.7.8:1111")) fresh_state
              eq_refl) as (st & Ha & Hst & Hrep & _).
  exists st. repeat split; assumption.
Defined.

(** ** The rendered document *)

Lemma reconcile_files (self : Charm) (event : Event) (s : State) :
  files (final (_on_pcf_pebble_ready self event s)) = files s.
Proof.
  destruct (_database_relation_is_created self) eqn:Hdb;
    [|rewrite reconcile_no_database by assumption; reflexivity].
  destruct (_nrf_relation_is_created self) eqn:Hnrf;
    [|rewrite reconcile_no_nrf by assumption; reflexivity].
  destruct (can_connect self) eqn:Hcan;
    [|rewrite reconcile_unreachable by assumption; reflexivity].
  destruct (files s !! config_path) as [doc|] eqn:Hfile;
    [|rewrite reconcile_not_written by assumption; reflexivity].
  rewrite reconcile_success by (try assumption; rewrite Hfile; eauto).
  reflexivity.
Qed.

Lemma write_and_reconcile_writes (self : Charm) (event : Event)
    (u : string) (n : option string) (s : State) :
  can_connect self = true ->
  let r := write_and_reconcile self event u n s in
  value r = Return tt
  /\ calls r
     = write_calls self u n
       ++ calls (_on_pcf_pebble_ready self event (with_document (document self u n) s))
  /\ files (final r) !! config_path = Some (document self u n).
Proof.
  intros Hcan. unfold write_and_reconcile, bind.
  rewrite write_config_file_run by assumption. simpl.
  split; [apply reconcile_returns|]. split; [reflexivity|].
  rewrite reconcile_files. apply with_document_lookup.
Qed.

Lemma url_line (n h d u : string) :
  In ("    url: " +:+ u) (Template.pcfcfg_conf_j2 n h d u).
Proof. unfold Template.pcfcfg_conf_j2. apply in_or_app. left. simpl. auto 10. Qed.

Lemma write_config_file_unreachable (self : Charm) (u : string) (n : option string)
    (s : State) :
  can_connect self = false ->
  _write_config_file self u n s
  = Run (Raise ConnectionError) s (write_calls self u n).
Proof.
  intros Hcan. unfold _write_config_file, bind. simpl.
  rewrite push_unreachable by assumption. reflexivity.
Qed.

(** C6: the document that [_write_config_file] renders and pushes is a
    function of the database URL, the registry URL and the unit's hostname
    alone: two invocations with the same URLs by charms of the same hostname,
    from any two states, make the same [render] call, with nothing but those
    values and the database name, and hand the same bytes for the same path
    to [push].  Rendering has no effect of its own: where the container can be
    reached the invocation returns and changes its state in the pushed file
    only, which then holds the document; where it cannot, the push raises and
    the state is untouched. *)
Theorem rendering_is_deterministic (self1 self2 : Charm) (s1 s2 : State)
    (database_url : string) (nrf_url : option string) :
  _pcf_hostname self1 = _pcf_hostname self2 ->
  let r1 := _write_config_file self1 database_url nrf_url s1 in
  let r2 := _write_config_file self2 database_url nrf_url s2 in
  let doc := Template.render nrf_url (_pcf_hostname self1) DATABASE_NAME database_url in
  calls r1 = calls r2
  /\ calls r1 = [Call_render nrf_url (_pcf_hostname self1) DATABASE_NAME database_url;
                 Call_push config_path doc]
  /\ (can_connect self1 = true ->
      value r1 = Return tt
      /\ files (final r1) !! config_path = Some doc
      /\ final r1 = set_files (<[config_path := doc]> (files s1)) s1)
  /\ (can_connect self2 = true ->
      value r2 = Return tt
      /\ files (final r2) !! config_path = Some doc
      /\ final r2 = set_files (<[config_path := doc]> (files s2)) s2)
  /\ (can_connect self1 = false ->
      value r1 = Raise ConnectionError /\ final r1 = s1)
  /\ (can_connect self2 = false ->
      value r2 = Raise ConnectionError /\ final r2 = s2).
Proof.
  intros Hhost r1 r2 doc.
  assert (Hcalls : forall self s,
             calls (_write_config_file self database_url nrf_url s)
             = write_calls self database_url nrf_url).
  { intros self s. destruct (can_connect self) eqn:Hcan.
    - rewrite write_config_file_run by assumption. reflexivity.
    - rewrite write_config_file_unreachable by assumption. reflexivity. }
  subst r1 r2 doc. rewrite !Hcalls.
  unfold write_calls, document. rewrite <- Hhost.
  split; [reflexivity|]. split; [reflexivity|].
  repeat split;
    try (rewrite write_config_file_run by assumption; simpl;
         unfold document; rewrite <- ?Hhost;
         try reflexivity; apply lookup_insert_eq);
    rewrite write_config_file_unreachable by assumption; reflexivity.
Qed.

Lemma rendering_is_deterministic_witness :
  calls (_write_config_file (related_charm true both_relations)
           "1.2.3.4:1234" (Some "http://1.1.1.1") fresh_state)
  = calls (_write_config_file (related_charm false nrf_only)
             "1.2.3.4:1234" (Some "http://1.1.1.1") written_state)
  /\ files (final (_write_config_file (related_charm true both_relations)
                     "1.2.3.4:1234" (Some "http://1.1.1.1") fresh_state))
       !! config_path
     = Some (Template.render (Some "http://1.1.1.1")
               (_pcf_hostname (related_charm true both_relations))
               DATABASE_NAME "1.2.3.4:1234")
  /\ final (_write_config_file (related_charm false nrf_only)
              "1.2.3.4:1234" (Some "http://1.1.1.1") written_state)
     = written_state.
Proof.
  pose proof (rendering_is_deterministic (related_charm true both_relations)
                (related_charm false nrf_only) fresh_state written_state
                "1.2.3.4:1234" (Some "http://1.1.1.1") eq_refl) as H.
  cbv zeta in H.
  destruct H as (Hcalls & _ & Hreach & _ & _ & Hunreach).
  split; [exact Hcalls|]. split.
  - apply Hreach. reflexivity.
  - apply Hunreach. reflexivity.
Defined.

(** C5: when the config-write step runs on a database payload whose [uris]
    is the comma-joined list of one or more URIs (none of the first URI's
    characters a comma), the [database_url] handed to [render], and hence the
    [url] line of the pushed document, is the first URI of the list, as
    supplied.  This holds for the database-created handler, whose payload is
    the event's [uris], and for the NRF-available handler, whose payload is the
    database relation data. *)
Theorem first_uri_is_rendered (self : Charm) (s : State)
    (u : string) (us : list string) :
  Str.contains Str.comma u = false ->
  can_connect self = true ->
  (_nrf_relation_is_created self = true ->
   _nrf_data_is_available self = true ->
   let r := emit self (DatabaseCreatedEvent (Some (Str.join "," (u :: us)))) s in
   value r = Return tt
   /\ (exists others,
         calls r
         = [Call_render (get_nrf_url self) (_pcf_hostname self) DATABASE_NAME u;
            Call_push config_path
              (Template.render (get_nrf_url self) (_pcf_hostname self)
                 DATABASE_NAME u)] ++ others)
   /\ files (final r) !! config_path
      = Some (Template.render (get_nrf_url self) (_pcf_hostname self)
                DATABASE_NAME u))
  /\ (forall url data,
        _database_relation_is_created self = true ->
        _database_is_available self = true ->
        _database_data self = Return data ->
        data !! "uris" = Some (Str.join "," (u :: us)) ->
        let r := emit self (NRFAvailableEvent url) s in
        value r = Return tt
        /\ (exists others,
              calls r
              = [Call_render (Some url) (_pcf_hostname self) DATABASE_NAME u;
                 Call_push config_path
                   (Template.render (Some url) (_pcf_hostname self)
                      DATABASE_NAME u)] ++ others)
        /\ files (final r) !! config_path
           = Some (Template.render (Some url) (_pcf_hostname self)
                     DATABASE_NAME u))
  /\ (forall nrf_url : option string,
        Template.render nrf_url (_pcf_hostname self) DATABASE_NAME u
        = Str.join Str.newline
            (Template.pcfcfg_conf_j2 (Template.to_str nrf_url) (_pcf_hostname self)
               DATABASE_NAME u)
        /\ In ("    url: " +:+ u)
             (Template.pcfcfg_conf_j2 (Template.to_str nrf_url) (_pcf_hostname self)
                DATABASE_NAME u)).
Proof.
  intros Hu Hcan. split; [|split].
  - intros Hnrf Hdata r. subst r. simpl.
    rewrite database_created_passes by assumption. simpl.
    rewrite split_comma_first_join by assumption.
    destruct (write_and_reconcile_writes self
                (DatabaseCreatedEvent (Some (Str.join "," (u :: us))))
                u (get_nrf_url self) s Hcan) as (Hret & Hcalls & Hfile).
    split; [exact Hret|]. split; [|exact Hfile].
    eexists. exact Hcalls.
  - intros url data Hdb Hav Hdata Huris r. subst r. simpl.
    rewrite nrf_available_passes by assumption.
    rewrite Hdata. unfold getitem. rewrite Huris.
    rewrite split_comma_first_join by assumption. simpl.
    destruct (write_and_reconcile_writes self (NRFAvailableEvent url)
                u (Some url) s Hcan) as (Hret & Hcalls & Hfile).
    split; [exact Hret|]. split; [|exact Hfile].
    eexists. exact Hcalls.
  - intros nrf_url. split; [reflexivity | apply url_line].
Qed.

Lemma first_uri_is_rendered_witness :
  files (final (emit (related_charm true nrf_only)
                  (DatabaseCreatedEvent (Some "1.2.3.4:1234,5.6.7.8:1111"))
                  fresh_state)) !! config_path
  = Some (Template.render (Some "http://1.1.1.1")
            "pcf-operator.whatever.svc.cluster.local" "free5gc" "1.2.3.4:1234").
Proof.
  pose proof (first_uri_is_rendered (related_charm true nrf_only) fresh_state
                "1.2.3.4:1234" ["5.6.7.8:1111"] eq_refl eq_refl) as [H _].
  apply H; reflexivity.
Defined.

(** ** When the configuration file is written *)

Lemma reconcile_never_writes (self : Charm) (event : Event) (s : State) :
  Forall (fun c => ~ writes c) (calls (_on_pcf_pebble_ready self event s)).
Proof.
  destruct (_database_relation_is_created self) eqn:Hdb;
    [|rewrite reconcile_no_database by assumption; repeat constructor; auto].
  destruct (_nrf_relation_is_created self) eqn:Hnrf;
    [|rewrite reconcile_no_nrf by assumption; repeat constructor; auto].
  destruct (can_connect self) eqn:Hcan;
    [|rewrite reconcile_unreachable by assumption; repeat constructor; auto].
  destruct (files s !! config_path) as [doc|] eqn:Hfile;
    [|rewrite reconcile_not_written by assumption; repeat constructor; auto].
  rewrite reconcile_success by (try assumption; rewrite Hfile; eauto).
  repeat constructor; auto.
Qed.

Lemma not_writes_guarded (self : Charm) (event : Event) (cs : list call) :
  Forall (fun c => ~ writes c) cs -> Forall (guarded self event) cs.
Proof.
  intros H. eapply Forall_impl; [exact H|].
  intros c Hc. destruct c; simpl in *; tauto.
Qed.

Lemma write_and_reconcile_guarded (self : Charm) (event : Event)
    (u : string) (n : option string) (s : State) :
  write_guard self event n u ->
  Forall (guarded self event) (calls (write_and_reconcile self event u n s)).
Proof.
  intros Hg.
  destruct (write_and_reconcile_writes self event u n s (proj1 Hg))
    as (_ & Hcalls & _).
  rewrite Hcalls. apply Forall_app. split.
  - unfold write_calls. constructor; [|constructor; [|constructor]]; simpl.
    + auto.
    + split; [reflexivity|]. exists n, u. auto.
  - apply not_writes_guarded, reconcile_never_writes.
Qed.

Lemma emit_guarded (self : Charm) (event : Event) (s : State) :
  Forall (guarded self event) (calls (emit self event s)).
Proof.
  destruct event as [| |uris|url]; simpl.
  - apply not_writes_guarded, reconcile_never_writes.
  - apply not_writes_guarded, reconcile_never_writes.
  - destruct (can_connect self) eqn:Hcan;
      [|unfold _on_database_created; rewrite Hcan; repeat constructor].
    destruct (_nrf_relation_is_created self) eqn:Hnrf;
      [|unfold _on_database_created; rewrite Hcan, Hnrf; repeat constructor].
    destruct (_nrf_data_is_available self) eqn:Hdata;
      [|unfold _on_database_created; rewrite Hcan, Hnrf, Hdata; repeat constructor].
    rewrite database_created_passes by assumption. simpl.
    destruct (split_comma_first uris) as [u|e] eqn:Hsplit; [|constructor].
    apply write_and_reconcile_guarded. repeat split; assumption.
  - destruct (can_connect self) eqn:Hcan;
      [|unfold _on_nrf_available; rewrite Hcan; repeat constructor].
    destruct (_database_relation_is_created self) eqn:Hdb;
      [|unfold _on_nrf_available; rewrite Hcan, Hdb; repeat constructor].
    destruct (_database_is_available self) eqn:Hav;
      [|unfold _on_nrf_available; rewrite Hcan, Hdb, Hav; repeat constructor].
    rewrite nrf_available_passes by assumption. simpl.
    destruct (_database_data self) as [data|e] eqn:Hdata; [|constructor].
    unfold getitem.
    destruct (data !! "uris") as [uris|] eqn:Huris; [|constructor].
    destruct (split_comma_first (Some uris)) as [u|e] eqn:Hsplit; [|constructor].
    apply write_and_reconcile_guarded. repeat split; try assumption.
    exists data, uris. auto.
Qed.

(** C1 (as amended): over every sequence of deliveries, from any state, each
    rendering and each push happens in a handler run for which the container
    is reachable and the dependency other than the one the event comes from is
    established and has its data (database-created: the NRF relation exists
    and the registry URL is not empty; NRF-available: the database relation
    exists and its resource is created).  The renderer then receives the first
    comma-separated piece of the [uris] at hand and the registry URL as they
    are, and what is pushed to the configuration path is that rendering; the
    pebble-ready and relation-joined handlers never write. *)
Theorem written_only_behind_the_guards (steps : list (Charm * Event)) (s : State) :
  Forall (fun step => Forall (guarded step.1.1 step.1.2) step.2) (deliver steps s).1.
Proof.
  revert s. induction steps as [|[self event] rest IH]; intros s; simpl.
  - constructor.
  - specialize (IH (final (emit self event s))).
    destruct (deliver rest (final (emit self event s))) as [log s'] eqn:E.
    simpl in *. constructor; [|exact IH].
    simpl. apply emit_guarded.
Qed.

(** C1 (counterexample): a database-created event whose [uris] is the empty
    string, delivered while the container is reachable, both relations exist
    and the registry URL is [http://1.1.1.1].  The handler checks the NRF side
    only: it renders with an empty database URL, pushes the result, and goes
    on to Active. *)
Lemma empty_uri_list_is_written :
  calls (emit (related_charm true both_relations) (DatabaseCreatedEvent (Some ""))
           fresh_state)
  = [Call_render (Some "http://1.1.1.1") "pcf-operator.whatever.svc.cluster.local"
       "free5gc" "";
     Call_push "/etc/pcf/pcfcfg.conf"
       (Template.render (Some "http://1.1.1.1")
          "pcf-operator.whatever.svc.cluster.local" "free5gc" "");
     Call_add_layer "pcf" (_pebble_layer (related_charm true both_relations)) true;
     Call_replan;
     Set_status (ActiveStatus "")]
  /\ ~ written_only_with_full_data.
Proof.
  assert (Hcalls :
    calls (emit (related_charm true both_relations) (DatabaseCreatedEvent (Some ""))
             fresh_state)
    = [Call_render (Some "http://1.1.1.1") "pcf-operator.whatever.svc.cluster.local"
         "free5gc" "";
       Call_push "/etc/pcf/pcfcfg.conf"
         (Template.render (Some "http://1.1.1.1")
            "pcf-operator.whatever.svc.cluster.local" "free5gc" "");
       Call_add_layer "pcf" (_pebble_layer (related_charm true both_relations)) true;
       Call_replan;
       Set_status (ActiveStatus "")])
    by (vm_compute; reflexivity).
  split; [exact Hcalls|].
  intros Hall.
  pose proof (Hall [(related_charm true both_relations,
                     DatabaseCreatedEvent (Some ""))] fresh_state) as Hrun.
  assert (Hlog :
    (deliver [(related_charm true both_relations, DatabaseCreatedEvent (Some ""))]
       fresh_state).1
    = [(related_charm true both_relations, DatabaseCreatedEvent (Some ""),
        calls (emit (related_charm true both_relations)
                 (DatabaseCreatedEvent (Some "")) fresh_state))])
    by reflexivity.
  rewrite Hlog, Hcalls in Hrun.
  apply Forall_inv in Hrun.
  destruct (Hrun _ _ _ _ (or_introl eq_refl)) as (_ & Hne & _).
  apply Hne. reflexivity.
Qed.

(** ** The unit tests, replayed *)

(** [test_given_nrf_is_available_when_database_is_created_then_config_file_is_written]:
    [push] receives the document rendered with the first of the two URIs. *)
Example database_created_pushes_first_uri :
  In (Call_push "/etc/pcf/pcfcfg.conf"
        (Template.render (Some "http://1.1.1.1")
           "pcf-operator.whatever.svc.cluster.local" "free5gc" "1.2.3.4:1234"))
     (calls (emit (related_charm true nrf_only)
               (DatabaseCreatedEvent (Some "1.2.3.4:1234,5.6.7.8:1111"))
               fresh_state)).
Proof. vm_compute. right. left. reflexivity. Qed.

(** [test_given_database_is_available_when_nrf_is_available_then_config_file_is_written]. *)
Example nrf_available_pushes_database_uri :
  In (Call_push "/etc/pcf/pcfcfg.conf"
        (Template.render (Some "2.2.2.2")
           "pcf-operator.whatever.svc.cluster.local" "free5gc" "http://6.6.6.6"))
     (calls (emit (related_charm true database_only) (NRFAvailableEvent "2.2.2.2")
               fresh_state)).
Proof. vm_compute. right. left. reflexivity. Qed.

(** [test_given_config_file_is_written_when_pebble_ready_then_pebble_plan_is_applied]
    and [..._then_status_is_active]. *)
Example pebble_ready_plan_and_status :
  let s := final (emit (related_charm true both_relations) PebbleReadyEvent
                    written_state) in
  Pebble.plan (layers s)
  = {[ "pcf" :=
         {| override := "replace";
            startup := "enabled";
            command := "./pcf --pcfcfg /etc/pcf/pcfcfg.conf";
            environment :=
              {[ "GRPC_GO_LOG_VERBOSITY_LEVEL" := "99";
                 "GRPC_GO_LOG_SEVERITY_LEVEL" := "info";
                 "GRPC_TRACE" := "all";
                 "GRPC_VERBOSITY" := "debug";
                 "POD_IP" := "1.1.1.1";
                 "MANAGED_BY_CONFIG_POD" := "true" ]} |} ]}
  /\ running s = Pebble.plan (layers s)
  /\ starts s = 1%nat
  /\ unit_status s = ActiveStatus "".
Proof. vm_compute. repeat split; reflexivity. Qed.

(** The second line of the mongodb section of a rendered document. *)
Example rendered_document_lines :
  take 6 (Template.pcfcfg_conf_j2 "http://1.1.1.1"
            "pcf-operator.whatever.svc.cluster.local" "free5gc" "1.2.3.4:1234")
  = [ "configuration:";
      "  defaultBdtRefId: BdtPolicyId-";
      "  mongodb:";
      "    name: free5gc";
      "    url: 1.2.3.4:1234";
      "  nrfUri: http://1.1.1.1" ].
Proof. reflexivity. Qed.

(** * Further properties of the code *)

(** ** [split] and [join] *)

Section SplitJoin.

Variable sep : ascii.

Lemma join_head (c : ascii) (piece : string) (pieces : list string) :
  Str.join (String sep EmptyString) (String c piece :: pieces)
  = String c (Str.join (String sep EmptyString) (piece :: pieces)).
Proof. destruct pieces; reflexivity. Qed.

Lemma join_empty_head (piece : string) (pieces : list string) :
  Str.join (String sep EmptyString) (EmptyString :: piece :: pieces)
  = String sep (Str.join (String sep EmptyString) (piece :: pieces)).
Proof. reflexivity. Qed.

Lemma split_pieces_free (s : string) :
  Forall (fun piece => Str.contains sep piece = false) (Str.split sep s).
Proof.
  induction s as [|c rest IH]; cbn [Str.split].
  - repeat constructor.
  - destruct (Ascii.eqb c sep) eqn:E.
    + constructor; [reflexivity | exact IH].
    + destruct (Str.split sep rest) as [|piece pieces].
      * repeat constructor. cbn. rewrite E. reflexivity.
      * inversion IH as [|? ? Hpiece Hpieces]; subst.
        constructor; [|exact Hpieces].
        cbn. rewrite E, Hpiece. reflexivity.
Qed.

Lemma join_of_split (s : string) :
  Str.join (String sep EmptyString) (Str.split sep s) = s.
Proof.
  induction s as [|c rest IH]; cbn [Str.split]; [reflexivity|].
  destruct (Ascii.eqb c sep) eqn:E.
  - apply Ascii.eqb_eq in E. subst c.
    destruct (Str.split sep rest) as [|piece pieces] eqn:Hrest.
    + exfalso. exact (split_not_nil sep rest Hrest).
    + rewrite join_empty_head, IH. reflexivity.
  - destruct (Str.split sep rest) as [|piece pieces] eqn:Hrest.
    + exfalso. exact (split_not_nil sep rest Hrest).
    + rewrite join_head, IH. reflexivity.
Qed.

(** X1: joining the pieces of a string with the separator gives the string back;
    no piece holds the separator, and there is always at least one piece. *)
Theorem join_split (s : string) :
  Str.join (String sep EmptyString) (Str.split sep s) = s
  /\ Forall (fun piece => Str.contains sep piece = false) (Str.split sep s)
  /\ Str.split sep s <> [].
Proof.
  split; [apply join_of_split|].
  split; [apply split_pieces_free | apply split_not_nil].
Qed.

(** X2: splitting the join of one or more pieces, none of which holds the
    separator, gives the pieces back. *)
Theorem split_join (pieces : list string) :
  pieces <> [] ->
  Forall (fun piece => Str.contains sep piece = false) pieces ->
  Str.split sep (Str.join (String sep EmptyString) pieces) = pieces.
Proof.
  intros Hne Hfree. induction pieces as [|u us IH]; [contradiction|].
  inversion Hfree as [|? ? Hu Hus]; subst.
  destruct us as [|v vs].
  - apply split_free, Hu.
  - change (Str.join (String sep EmptyString) (u :: v :: vs))
      with (u +:+ String sep (Str.join (String sep EmptyString) (v :: vs))).
    rewrite split_before_sep by exact Hu.
    rewrite IH; [reflexivity | discriminate | exact Hus].
Qed.

End SplitJoin.

Lemma split_join_witness :
  Str.split Str.comma (Str.join "," ["1.2.3.4:1234"; "5.6.7.8:1111"])
  = ["1.2.3.4:1234"; "5.6.7.8:1111"].
Proof.
  apply (split_join Str.comma ["1.2.3.4:1234"; "5.6.7.8:1111"]).
  - discriminate.
  - repeat constructor.
Defined.

(** X3: what [uris.split(",")[0]] is: it never fails on a string, and its result
    holds no comma and is the part of [uris] before its first comma (all of
    [uris] when there is none). *)
Theorem first_piece_stops_at_comma (uris u : string) :
  split_comma_first (Some uris) = Return u ->
  Str.contains Str.comma u = false
  /\ (uris = u \/ exists rest, uris = u +:+ String Str.comma rest).
Proof.
  unfold split_comma_first. intros H.
  pose proof (join_of_split Str.comma uris) as Hjoin.
  pose proof (split_pieces_free Str.comma uris) as Hfree.
  destruct (Str.split Str.comma uris) as [|first others]; [discriminate|].
  injection H as ->.
  apply Forall_cons in Hfree as [Hu _]. split; [exact Hu|].
  destruct others as [|v vs].
  - left. symmetry. exact Hjoin.
  - right. exists (Str.join (String Str.comma EmptyString) (v :: vs)).
    symmetry. exact Hjoin.
Qed.

Lemma first_piece_stops_at_comma_witness :
  Str.contains Str.comma "mongodb://host1:27017" = false
  /\ ("mongodb://host1:27017,host2:27017/free5gc" = "mongodb://host1:27017"
      \/ exists rest,
           "mongodb://host1:27017,host2:27017/free5gc"
           = "mongodb://host1:27017" +:+ String Str.comma rest).
Proof.
  apply (first_piece_stops_at_comma "mongodb://host1:27017,host2:27017/free5gc"
           "mongodb://host1:27017").
  reflexivity.
Defined.

(** ** The guards of the handlers *)

(** X4: the reconciliation procedure looks at the database relation first: without
    it the status is Blocked with the database reason, whether or not the NRF
    relation exists, the container is reachable or the file is written; the
    event is not deferred and nothing else changes.  The pebble-ready and
    relation-joined handlers are this procedure. *)
Theorem database_missing_blocks_first (self : Charm) (event : Event) (s : State) :
  _database_relation_is_created self = false ->
  _on_pcf_pebble_ready self event s
  = Run (Return tt)
        (set_unit_status
           (BlockedStatus "Waiting for database relation to be created") s)
        [Set_status (BlockedStatus "Waiting for database relation to be created")]
  /\ emit self PebbleReadyEvent s = _on_pcf_pebble_ready self PebbleReadyEvent s
  /\ emit self RelationJoinedEvent s = _on_pcf_pebble_ready self RelationJoinedEvent s.
Proof.
  intros Hdb. split; [apply reconcile_no_database, Hdb|]. split; reflexivity.
Qed.

Lemma database_missing_blocks_first_witness :
  emit (related_charm false nrf_only) RelationJoinedEvent written_state
  = Run (Return tt)
        (set_unit_status
           (BlockedStatus "Waiting for database relation to be created")
           written_state)
        [Set_status (BlockedStatus "Waiting for database relation to be created")].
Proof.
  apply (database_missing_blocks_first (related_charm false nrf_only)
           RelationJoinedEvent written_state).
  reflexivity.
Defined.

(** X5: with the container reachable, the database-created handler stops at the
    NRF side before it reads the event: without the NRF relation it sets
    Blocked with the NRF reason, and with the relation but no NRF URL (none, or
    the empty string) it sets Waiting for the NRF data.  Either way it defers
    the event, makes no other call and writes nothing; the event's [uris] is
    not looked at, whatever it is. *)
Theorem database_created_stops_without_nrf (self : Charm) (event : Event) (s : State) :
  can_connect self = true ->
  (_nrf_relation_is_created self = false ->
   _on_database_created self event s
   = Run (Return tt)
         (set_deferred (deferred s ++ [event])
            (set_unit_status
               (BlockedStatus "Waiting for NRF relation to be created") s))
         [Set_status (BlockedStatus "Waiting for NRF relation to be created");
          Call_defer event])
  /\ (_nrf_relation_is_created self = true ->
      _nrf_data_is_available self = false ->
      _on_database_created self event s
      = Run (Return tt)
            (set_deferred (deferred s ++ [event])
               (set_unit_status
                  (WaitingStatus "Waiting for NRF data to be available") s))
            [Set_status (WaitingStatus "Waiting for NRF data to be available");
             Call_defer event]).
Proof.
  intros Hcan. unfold _on_database_created. rewrite Hcan. split.
  - intros Hnrf. rewrite Hnrf. reflexivity.
  - intros Hnrf Hdata. rewrite Hnrf, Hdata. reflexivity.
Qed.

Lemma database_created_stops_without_nrf_witness :
  calls (emit (related_charm true database_only) (DatabaseCreatedEvent None)
           fresh_state)
  = [Set_status (BlockedStatus "Waiting for NRF relation to be created");
     Call_defer (DatabaseCreatedEvent None)].
Proof.
  pose proof (database_created_stops_without_nrf
                (related_charm true database_only) (DatabaseCreatedEvent None)
                fresh_state eq_refl) as [H _].
  change (emit (related_charm true database_only) (DatabaseCreatedEvent None)
            fresh_state)
    with (_on_database_created (related_charm true database_only)
            (DatabaseCreatedEvent None) fresh_state).
  rewrite (H eq_refl). reflexivity.
Defined.

(** X6: with the container reachable, the NRF-available handler stops at the
    database side before it reads any data: without the database relation it
    sets Blocked with the database reason, and with the relation but the
    resource not created it sets Waiting for the database.  Either way it
    defers the event, makes no other call and writes nothing, and
    [_database_data] is not evaluated. *)
Theorem nrf_available_stops_without_database
    (self : Charm) (event : Event) (s : State) :
  can_connect self = true ->
  (_database_relation_is_created self = false ->
   _on_nrf_available self event s
   = Run (Return tt)
         (set_deferred (deferred s ++ [event])
            (set_unit_status
               (BlockedStatus "Waiting for database relation to be created") s))
         [Set_status (BlockedStatus "Waiting for database relation to be created");
          Call_defer event])
  /\ (_database_relation_is_created self = true ->
      _database_is_available self = false ->
      _on_nrf_available self event s
      = Run (Return tt)
            (set_deferred (deferred s ++ [event])
               (set_unit_status
                  (WaitingStatus "Waiting for database to be available") s))
            [Set_status (WaitingStatus "Waiting for database to be available");
             Call_defer event]).
Proof.
  intros Hcan. unfold _on_nrf_available. rewrite Hcan. split.
  - intros Hdb. rewrite Hdb. reflexivity.
  - intros Hdb Hav. rewrite Hdb, Hav. reflexivity.
Qed.

Lemma nrf_available_stops_without_database_witness :
  calls (emit unavailable_charm (NRFAvailableEvent "http://1.1.1.1") fresh_state)
  = [Set_status (WaitingStatus "Waiting for database to be available");
     Call_defer (NRFAvailableEvent "http://1.1.1.1")].
Proof.
  pose proof (nrf_available_stops_without_database unavailable_charm
                (NRFAvailableEvent "http://1.1.1.1") fresh_state eq_refl)
    as [_ H].
  change (emit unavailable_charm (NRFAvailableEvent "http://1.1.1.1") fresh_state)
    with (_on_nrf_available unavailable_charm (NRFAvailableEvent "http://1.1.1.1")
            fresh_state).
  rewrite (H eq_refl eq_refl). reflexivity.
Defined.

(** ** A data-changed event that finds everything ready *)

Lemma database_created_success (self : Charm) (s : State)
    (uris : option string) (u : string) :
  can_connect self = true ->
  _database_relation_is_created self = true ->
  _nrf_relation_is_created self = true ->
  _nrf_data_is_available self = true ->
  split_comma_first uris = Return u ->
  emit self (DatabaseCreatedEvent uris) s
  = Run (Return tt)
        (applied self (with_document (document self u (get_nrf_url self)) s))
        (write_calls self u (get_nrf_url self) ++ applied_calls self).
Proof.
  intros Hcan Hdb Hnrf Hdata Hsplit. simpl.
  rewrite database_created_passes by assumption. simpl. rewrite Hsplit.
  apply write_and_reconcile_success; assumption.
Qed.

Lemma nrf_available_success (self : Charm) (s : State)
    (url uris u : string) (data : gmap string string) :
  can_connect self = true ->
  _database_relation_is_created self = true ->
  _nrf_relation_is_created self = true ->
  _database_is_available self = true ->
  _database_data self = Return data ->
  data !! "uris" = Some uris ->
  split_comma_first (Some uris) = Return u ->
  emit self (NRFAvailableEvent url) s
  = Run (Return tt)
        (applied self (with_document (document self u (Some url)) s))
        (write_calls self u (Some url) ++ applied_calls self).
Proof.
  intros Hcan Hdb Hnrf Hav Hdata Huris Hsplit. simpl.
  rewrite nrf_available_passes by assumption.
  rewrite Hdata. unfold getitem. rewrite Huris, Hsplit. simpl.
  apply write_and_reconcile_success; assumption.
Qed.

(** X7: with the container reachable, both relations established and the other
    side's data there, a data-changed handler writes the document and goes
    straight through the reconciliation procedure in the same run: render,
    push, add the layer, replan, Active.  It never stops at the config-file
    check, whatever files the container held before. *)
Theorem data_changed_goes_active (self : Charm) (s : State) (u : string) :
  can_connect self = true ->
  _database_relation_is_created self = true ->
  _nrf_relation_is_created self = true ->
  (forall uris,
     _nrf_data_is_available self = true ->
     split_comma_first uris = Return u ->
     emit self (DatabaseCreatedEvent uris) s
     = Run (Return tt)
           (applied self (with_document (document self u (get_nrf_url self)) s))
           (write_calls self u (get_nrf_url self) ++ applied_calls self))
  /\ (forall url data uris,
        _database_is_available self = true ->
        _database_data self = Return data ->
        data !! "uris" = Some uris ->
        split_comma_first (Some uris) = Return u ->
        emit self (NRFAvailableEvent url) s
        = Run (Return tt)
              (applied self (with_document (document self u (Some url)) s))
              (write_calls self u (Some url) ++ applied_calls self)).
Proof.
  intros Hcan Hdb Hnrf. split.
  - intros uris Hdata Hsplit. apply database_created_success; assumption.
  - intros url data uris Hav Hdata Huris Hsplit.
    apply (nrf_available_success self s url uris u data); assumption.
Qed.

Lemma data_changed_goes_active_witness :
  unit_status
    (final (emit (related_charm true both_relations)
              (DatabaseCreatedEvent (Some "1.2.3.4:1234,5.6.7.8:1111")) fresh_state))
  = ActiveStatus "".
Proof.
  pose proof (data_changed_goes_active (related_charm true both_relations)
                fresh_state "1.2.3.4:1234" eq_refl eq_refl eq_refl) as [H _].
  rewrite (H (Some "1.2.3.4:1234,5.6.7.8:1111") eq_refl eq_refl).
  reflexivity.
Defined.

(** X8: neither data-changed handler ever sets the status that waits for the
    config file: when it reaches the reconciliation procedure it has just
    written the file. *)
Theorem data_changed_never_waits_for_file (self : Charm) (event : Event) (s : State) :
  match event with
  | PebbleReadyEvent | RelationJoinedEvent => True
  | DatabaseCreatedEvent _ | NRFAvailableEvent _ =>
      ~ In (Set_status (WaitingStatus "Waiting for config file to be written"))
           (calls (emit self event s))
  end.
Proof.
  assert (Hwr : forall ev u n,
             can_connect self = true ->
             ~ In (Set_status (WaitingStatus "Waiting for config file to be written"))
                  (calls (write_and_reconcile self ev u n s))).
  { intros ev u n Hcan.
    destruct (write_and_reconcile_writes self ev u n s Hcan) as (_ & Hcalls & _).
    rewrite Hcalls. intros Hin. apply in_app_or in Hin as [Hin|Hin].
    - destruct Hin as [H|[H|[]]]; discriminate.
    - revert Hin.
      destruct (_database_relation_is_created self) eqn:Hdb;
        [|rewrite reconcile_no_database by assumption;
          intros [H|[]]; discriminate].
      destruct (_nrf_relation_is_created self) eqn:Hnrf;
        [|rewrite reconcile_no_nrf by assumption; intros [H|[]]; discriminate].
      rewrite reconcile_success
        by (try assumption; rewrite with_document_lookup; eauto).
      intros [H|[H|[H|[]]]]; discriminate. }
  destruct event as [| |uris|url]; simpl; try exact I.
  - destruct (can_connect self) eqn:Hcan;
      [|unfold _on_database_created; rewrite Hcan;
        intros [H|[H|[]]]; discriminate].
    destruct (_nrf_relation_is_created self) eqn:Hnrf;
      [|unfold _on_database_created; rewrite Hcan, Hnrf;
        intros [H|[H|[]]]; discriminate].
    destruct (_nrf_data_is_available self) eqn:Hdata;
      [|unfold _on_database_created; rewrite Hcan, Hnrf, Hdata;
        intros [H|[H|[]]]; discriminate].
    rewrite database_created_passes by assumption. simpl.
    destruct (split_comma_first uris) as [u|e]; [|intros []].
    apply Hwr; reflexivity.
  - destruct (can_connect self) eqn:Hcan;
      [|unfold _on_nrf_available; rewrite Hcan;
        intros [H|[H|[]]]; discriminate].
    destruct (_database_relation_is_created self) eqn:Hdb;
      [|unfold _on_nrf_available; rewrite Hcan, Hdb;
        intros [H|[H|[]]]; discriminate].
    destruct (_database_is_available self) eqn:Hav;
      [|unfold _on_nrf_available; rewrite Hcan, Hdb, Hav;
        intros [H|[H|[]]]; discriminate].
    rewrite nrf_available_passes by assumption. simpl.
    destruct (_database_data self) as [data|e]; [|intros []].
    destruct (getitem data "uris") as [uris|e]; [|intros []].
    destruct (split_comma_first (Some uris)) as [u|e]; [|intros []].
    apply Hwr; reflexivity.
Qed.

(** ** The shapes a handler run can take *)

(** Every run of the reconciliation procedure is one of its five branches. *)
Lemma reconcile_elim (P : run unit -> Prop) (self : Charm) (event : Event) (s : State) :
  (forall msg,
     _database_relation_is_created self = false
     \/ _nrf_relation_is_created self = false ->
     P (Run (Return tt) (set_unit_status (BlockedStatus msg) s)
          [Set_status (BlockedStatus msg)])) ->
  (forall msg,
     can_connect self = false ->
     P (Run (Return tt)
          (set_deferred (deferred s ++ [event])
             (set_unit_status (WaitingStatus msg) s))
          [Set_status (WaitingStatus msg); Call_defer event])) ->
  (forall msg,
     files s !! config_path = None ->
     P (Run (Return tt) (set_unit_status (WaitingStatus msg) s)
          [Set_status (WaitingStatus msg)])) ->
  (can_connect self = true ->
   _database_relation_is_created self = true ->
   _nrf_relation_is_created self = true ->
   is_Some (files s !! config_path) ->
   P (Run (Return tt) (applied self s) (applied_calls self))) ->
  P (_on_pcf_pebble_ready self event s).
Proof.
  intros Hblocked Hdefer Hwait Happlied.
  destruct (_database_relation_is_created self) eqn:Hdb;
    [|rewrite reconcile_no_database by assumption; apply Hblocked; auto].
  destruct (_nrf_relation_is_created self) eqn:Hnrf;
    [|rewrite reconcile_no_nrf by assumption; apply Hblocked; auto].
  destruct (can_connect self) eqn:Hcan;
    [|rewrite reconcile_unreachable by assumption; apply Hdefer; reflexivity].
  destruct (files s !! config_path) as [doc|] eqn:Hfile;
    [|rewrite reconcile_not_written by assumption; apply Hwait; reflexivity].
  rewrite reconcile_success by (try assumption; rewrite Hfile; eauto).
  apply Happlied; try reflexivity. eauto.
Qed.

(** Once a data-changed handler has written, the container is reachable and
    the file is there, so the procedure either misses a relation or applies
    the plan. *)
Lemma write_and_reconcile_elim (P : run unit -> Prop) (self : Charm) (event : Event)
    (u : string) (n : option string) (s : State) :
  can_connect self = true ->
  (forall msg,
     _database_relation_is_created self = false
     \/ _nrf_relation_is_created self = false ->
     P (Run (Return tt)
          (set_unit_status (BlockedStatus msg) (with_document (document self u n) s))
          (write_calls self u n ++ [Set_status (BlockedStatus msg)]))) ->
  (_database_relation_is_created self = true ->
   _nrf_relation_is_created self = true ->
   P (Run (Return tt) (applied self (with_document (document self u n) s))
        (write_calls self u n ++ applied_calls self))) ->
  P (write_and_reconcile self event u n s).
Proof.
  intros Hcan Hblocked Happlied.
  unfold write_and_reconcile, bind. rewrite write_config_file_run by assumption. simpl.
  destruct (_database_relation_is_created self) eqn:Hdb;
    [|rewrite reconcile_no_database by assumption; apply Hblocked; auto].
  destruct (_nrf_relation_is_created self) eqn:Hnrf;
    [|rewrite reconcile_no_nrf by assumption; apply Hblocked; auto].
  rewrite reconcile_success
    by (try assumption; rewrite with_document_lookup; eauto).
  apply Happlied; reflexivity.
Qed.

(** Every handler run is a branch of the reconciliation procedure, a stop at a
    guard of a data-changed handler (status set, event deferred), a failure
    on reading the payload, before any effect, or a write followed by the
    procedure. *)
Lemma emit_elim (P : run unit -> Prop) (self : Charm) (event : Event) (s : State) :
  (forall msg,
     _database_relation_is_created self = false
     \/ _nrf_relation_is_created self = false ->
     P (Run (Return tt) (set_unit_status (BlockedStatus msg) s)
          [Set_status (BlockedStatus msg)])) ->
  (forall st,
     (exists msg, st = WaitingStatus msg)
     \/ (exists msg, st = BlockedStatus msg)
        /\ (_database_relation_is_created self = false
            \/ _nrf_relation_is_created self = false) ->
     P (Run (Return tt)
          (set_deferred (deferred s ++ [event]) (set_unit_status st s))
          [Set_status st; Call_defer event])) ->
  (forall msg,
     files s !! config_path = None ->
     P (Run (Return tt) (set_unit_status (WaitingStatus msg) s)
          [Set_status (WaitingStatus msg)])) ->
  (can_connect self = true ->
   _database_relation_is_created self = true ->
   _nrf_relation_is_created self = true ->
   is_Some (files s !! config_path) ->
   P (Run (Return tt) (applied self s) (applied_calls self))) ->
  (forall e, can_connect self = true -> P (Run (Raise e) s [])) ->
  (forall u n msg,
     can_connect self = true ->
     _database_relation_is_created self = false
     \/ _nrf_relation_is_created self = false ->
     P (Run (Return tt)
          (set_unit_status (BlockedStatus msg) (with_document (document self u n) s))
          (write_calls self u n ++ [Set_status (BlockedStatus msg)]))) ->
  (forall u n,
     can_connect self = true ->
     _database_relation_is_created self = true ->
     _nrf_relation_is_created self = true ->
     P (Run (Return tt) (applied self (with_document (document self u n) s))
          (write_calls self u n ++ applied_calls self))) ->
  P (emit self event s).
Proof.
  intros Hblocked Hdefer Hwait Happlied Hraise Hwblocked Hwapplied.
  assert (Hrec : forall ev, ev = event -> P (_on_pcf_pebble_ready self ev s)).
  { intros ev ->. apply reconcile_elim; auto.
    intros msg Hcan. apply Hdefer. left. eauto. }
  assert (Hwr : forall u n, can_connect self = true ->
                       P (write_and_reconcile self event u n s)).
  { intros u n Hcan. apply write_and_reconcile_elim; auto. }
  destruct event as [| |uris|url]; simpl; try (apply Hrec; reflexivity).
  - destruct (can_connect self) eqn:Hcan;
      [|unfold _on_database_created; rewrite Hcan; apply Hdefer; left; eauto].
    destruct (_nrf_relation_is_created self) eqn:Hnrf;
      [|unfold _on_database_created; rewrite Hcan, Hnrf; apply Hdefer; right;
        split; eauto].
    destruct (_nrf_data_is_available self) eqn:Hdata;
      [|unfold _on_database_created; rewrite Hcan, Hnrf, Hdata; apply Hdefer;
        left; eauto].
    rewrite database_created_passes by assumption. simpl.
    destruct (split_comma_first uris) as [u|e]; [|apply Hraise; reflexivity].
    apply Hwr. reflexivity.
  - destruct (can_connect self) eqn:Hcan;
      [|unfold _on_nrf_available; rewrite Hcan; apply Hdefer; left; eauto].
    destruct (_database_relation_is_created self) eqn:Hdb;
      [|unfold _on_nrf_available; rewrite Hcan, Hdb; apply Hdefer; right;
        split; eauto].
    destruct (_database_is_available self) eqn:Hav;
      [|unfold _on_nrf_available; rewrite Hcan, Hdb, Hav; apply Hdefer;
        left; eauto].
    rewrite nrf_available_passes by assumption. simpl.
    destruct (_database_data self) as [data|e]; [|apply Hraise; reflexivity].
    destruct (getitem data "uris") as [uris|e]; [|apply Hraise; reflexivity].
    destruct (split_comma_first (Some uris)) as [u|e];
      [|apply Hraise; reflexivity].
    apply Hwr. reflexivity.
Qed.

(** ** What the handlers leave alone *)

Lemma emit_files_elsewhere (self : Charm) (event : Event) (s : State) (path : string) :
  path <> config_path ->
  files (final (emit self event s)) !! path = files s !! path.
Proof.
  intros Hpath.
  apply (emit_elim (fun r => files (final r) !! path = files s !! path));
    intros; simpl; try reflexivity;
    apply lookup_insert_ne; congruence.
Qed.

Lemma emit_keeps_config_file (self : Charm) (event : Event) (s : State) :
  is_Some (files s !! config_path) ->
  is_Some (files (final (emit self event s)) !! config_path).
Proof.
  intros Hfile.
  apply (emit_elim (fun r => is_Some (files (final r) !! config_path)));
    intros; simpl; try exact Hfile;
    rewrite lookup_insert_eq; eauto.
Qed.

(** X9: over any sequence of deliveries the handlers write to one path only: every
    other file of the container is, at the end, what it was at the start. *)
Theorem deliveries_touch_only_the_config_file
    (steps : list (Charm * Event)) (s : State) (path : string) :
  path <> config_path ->
  files (deliver steps s).2 !! path = files s !! path.
Proof.
  intros Hpath. revert s.
  induction steps as [|[self event] rest IH]; intros s; simpl; [reflexivity|].
  specialize (IH (final (emit self event s))).
  destruct (deliver rest (final (emit self event s))) as [log s'].
  simpl in *. rewrite IH. apply emit_files_elsewhere, Hpath.
Qed.

Lemma deliveries_touch_only_the_config_file_witness :
  files (deliver [(related_charm true both_relations,
                   DatabaseCreatedEvent (Some "1.2.3.4:1234"));
                  (related_charm true both_relations, PebbleReadyEvent)]
           (set_files {[ "/etc/pcf/other.conf" := "kept" ]} fresh_state)).2
    !! "/etc/pcf/other.conf"
  = Some "kept".
Proof.
  rewrite (deliveries_touch_only_the_config_file
             [(related_charm true both_relations,
               DatabaseCreatedEvent (Some "1.2.3.4:1234"));
              (related_charm true both_relations, PebbleReadyEvent)]
             (set_files {[ "/etc/pcf/other.conf" := "kept" ]} fresh_state)
             "/etc/pcf/other.conf")
    by (vm_compute; discriminate).
  reflexivity.
Defined.

(** X10: no handler removes the configuration file: once it is in the container it
    is still there after any sequence of deliveries, whatever the
    collaborators answer along the way. *)
Theorem config_file_stays_written (steps : list (Charm * Event)) (s : State) :
  is_Some (files s !! config_path) ->
  is_Some (files (deliver steps s).2 !! config_path).
Proof.
  revert s. induction steps as [|[self event] rest IH]; intros s Hfile; simpl;
    [exact Hfile|].
  specialize (IH (final (emit self event s)) (emit_keeps_config_file _ _ _ Hfile)).
  destruct (deliver rest (final (emit self event s))) as [log s'].
  exact IH.
Qed.

Lemma config_file_stays_written_witness :
  is_Some
    (files (deliver [(related_charm false nrf_only, NRFAvailableEvent "2.2.2.2");
                     (unavailable_charm, DatabaseCreatedEvent None)]
              written_state).2 !! config_path).
Proof.
  apply (config_file_stays_written
           [(related_charm false nrf_only, NRFAvailableEvent "2.2.2.2");
            (unavailable_charm, DatabaseCreatedEvent None)] written_state).
  vm_compute. eauto.
Defined.

(** X11: a handler run defers at most once and only the event it handles:
    either it makes no [defer] call and leaves the deferred events as they
    were, or its calls are a status assignment followed by one [defer] of its
    own event, which goes last among the deferred events. *)
Theorem handler_defers_own_event_at_most_once
    (self : Charm) (event : Event) (s : State) :
  (deferred (final (emit self event s)) = deferred s
   /\ forall ev, ~ In (Call_defer ev) (calls (emit self event s)))
  \/ (deferred (final (emit self event s)) = deferred s ++ [event]
      /\ exists st, calls (emit self event s) = [Set_status st; Call_defer event]).
Proof.
  apply (emit_elim (fun r =>
    (deferred (final r) = deferred s
     /\ forall ev, ~ In (Call_defer ev) (calls r))
    \/ (deferred (final r) = deferred s ++ [event]
        /\ exists st, calls r = [Set_status st; Call_defer event])));
    intros; simpl;
    try (left; split; [reflexivity|];
         intros ev Hin; simpl in Hin; intuition discriminate).
  right. split; [reflexivity|]. eauto.
Qed.

(** ** What a status tells *)

(** X12: a handler run that returns leaves the status Active only when the
    container is reachable, both relations exist and the configuration file is
    in the container at the end of the run; the run then replanned and did not
    defer its event. *)
Theorem active_only_when_ready (self : Charm) (event : Event) (s : State) (msg : string) :
  value (emit self event s) = Return tt ->
  unit_status (final (emit self event s)) = ActiveStatus msg ->
  can_connect self = true
  /\ _database_relation_is_created self = true
  /\ _nrf_relation_is_created self = true
  /\ is_Some (files (final (emit self event s)) !! config_path)
  /\ In Call_replan (calls (emit self event s))
  /\ deferred (final (emit self event s)) = deferred s.
Proof.
  apply (emit_elim (fun r =>
    value r = Return tt ->
    unit_status (final r) = ActiveStatus msg ->
    can_connect self = true
    /\ _database_relation_is_created self = true
    /\ _nrf_relation_is_created self = true
    /\ is_Some (files (final r) !! config_path)
    /\ In Call_replan (calls r)
    /\ deferred (final r) = deferred s)); simpl; try discriminate.
  - intros st [[m ->]|[[m ->] _]]; discriminate.
  - intros Hcan Hdb Hnrf Hfile _ _. repeat split; auto.
  - intros u n Hcan Hdb Hnrf _ _. repeat split; auto.
    rewrite lookup_insert_eq. eauto.
Qed.

Lemma active_only_when_ready_witness :
  is_Some
    (files (final (emit (related_charm true both_relations)
                     (NRFAvailableEvent "2.2.2.2") fresh_state)) !! config_path).
Proof.
  apply (active_only_when_ready (related_charm true both_relations)
           (NRFAvailableEvent "2.2.2.2") fresh_state EmptyString);
    vm_compute; reflexivity.
Defined.

(** X13: a handler run that returns leaves the status Blocked only when a relation
    is missing: the database relation or the NRF relation. *)
Theorem blocked_only_when_relation_missing
    (self : Charm) (event : Event) (s : State) (msg : string) :
  value (emit self event s) = Return tt ->
  unit_status (final (emit self event s)) = BlockedStatus msg ->
  _database_relation_is_created self = false
  \/ _nrf_relation_is_created self = false.
Proof.
  apply (emit_elim (fun r =>
    value r = Return tt ->
    unit_status (final r) = BlockedStatus msg ->
    _database_relation_is_created self = false
    \/ _nrf_relation_is_created self = false)); simpl; auto; try discriminate.
  intros st [[m ->]|[_ Hmissing]]; [discriminate | auto].
Qed.

Lemma blocked_only_when_relation_missing_witness :
  _database_relation_is_created (related_charm true nrf_only) = false
  \/ _nrf_relation_is_created (related_charm true nrf_only) = false.
Proof.
  apply (blocked_only_when_relation_missing (related_charm true nrf_only)
           (DatabaseCreatedEvent (Some "1.2.3.4:1234")) fresh_state
           "Waiting for database relation to be created");
    vm_compute; reflexivity.
Defined.

(** ** Failures of the payload *)

(** X14: a missing payload makes a data-changed handler fail before it has done
    anything.  Its guards passed, the database-created handler given an event
    whose [uris] is [None] raises [AttributeError] at the [split]; the
    NRF-available handler raises what [_database_data] raises, and [KeyError]
    when the relation data has no [uris] key.  In each case the handler has
    made no call (nothing rendered, pushed, deferred, no status set) and the
    state is the one it started from. *)
Theorem missing_payload_fails_before_any_effect (self : Charm) (s : State) :
  can_connect self = true ->
  (_nrf_relation_is_created self = true ->
   _nrf_data_is_available self = true ->
   emit self (DatabaseCreatedEvent None) s
   = Run (Raise (AttributeError "split")) s [])
  /\ (forall url,
        _database_relation_is_created self = true ->
        _database_is_available self = true ->
        (forall e,
           _database_data self = Raise e ->
           emit self (NRFAvailableEvent url) s = Run (Raise e) s [])
        /\ (forall data,
              _database_data self = Return data ->
              data !! "uris" = None ->
              emit self (NRFAvailableEvent url) s
              = Run (Raise (KeyError "uris")) s [])).
Proof.
  intros Hcan. split.
  - intros Hnrf Hdata. simpl.
    rewrite database_created_passes by assumption. reflexivity.
  - intros url Hdb Hav. split.
    + intros e He. simpl. rewrite nrf_available_passes by assumption.
      rewrite He. reflexivity.
    + intros data Hdata Huris. simpl.
      rewrite nrf_available_passes by assumption.
      rewrite Hdata. unfold getitem. rewrite Huris. reflexivity.
Qed.

Lemma missing_payload_fails_before_any_effect_witness :
  emit (related_charm true both_relations) (DatabaseCreatedEvent None) written_state
  = Run (Raise (AttributeError "split")) written_state [].
Proof.
  pose proof (missing_payload_fails_before_any_effect
                (related_charm true both_relations) written_state eq_refl)
    as [H _].
  apply H; reflexivity.
Defined.

(** X15: no handler run ends in the [RuntimeError] with which [_database_data]
    refuses to answer before the database is available: the only handler that
    reads [_database_data], [_on_nrf_available], does so after
    [_database_is_available] answered true. *)
Theorem database_data_fault_is_unreachable (self : Charm) (event : Event) (s : State) :
  value (emit self event s) <> Raise (RuntimeError "Database is not available").
Proof.
  intros Hraise.
  assert (Hwr : forall ev u n,
             can_connect self = true ->
             value (write_and_reconcile self ev u n s)
             <> Raise (RuntimeError "Database is not available")).
  { intros ev u n Hcan H.
    destruct (write_and_reconcile_writes self ev u n s Hcan) as (Hret & _).
    rewrite Hret in H. discriminate. }
  destruct event as [| |uris|url]; simpl in Hraise.
  - rewrite reconcile_returns in Hraise. discriminate.
  - rewrite reconcile_returns in Hraise. discriminate.
  - destruct (can_connect self) eqn:Hcan;
      [|unfold _on_database_created in Hraise; rewrite Hcan in Hraise;
        discriminate].
    destruct (_nrf_relation_is_created self) eqn:Hnrf;
      [|unfold _on_database_created in Hraise; rewrite Hcan, Hnrf in Hraise;
        discriminate].
    destruct (_nrf_data_is_available self) eqn:Hdata;
      [|unfold _on_database_created in Hraise;
        rewrite Hcan, Hnrf, Hdata in Hraise; discriminate].
    rewrite database_created_passes in Hraise by assumption. simpl in Hraise.
    destruct uris as [uris|]; [|discriminate].
    destruct (split_comma_first_returns uris) as [u Hu].
    rewrite Hu in Hraise. exact (Hwr _ _ _ eq_refl Hraise).
  - destruct (can_connect self) eqn:Hcan;
      [|unfold _on_nrf_available in Hraise; rewrite Hcan in Hraise;
        discriminate].
    destruct (_database_relation_is_created self) eqn:Hdb;
      [|unfold _on_nrf_available in Hraise; rewrite Hcan, Hdb in Hraise;
        discriminate].
    destruct (_database_is_available self) eqn:Hav;
      [|unfold _on_nrf_available in Hraise; rewrite Hcan, Hdb, Hav in Hraise;
        discriminate].
    rewrite nrf_available_passes in Hraise by assumption.
    destruct (_database_data self) as [data|e'] eqn:Hdata.
    + unfold getitem in Hraise.
      destruct (data !! "uris") as [uris|]; [|discriminate].
      destruct (split_comma_first_returns uris) as [u Hu].
      rewrite Hu in Hraise. simpl in Hraise. exact (Hwr _ _ _ eq_refl Hraise).
    + simpl in Hraise. injection Hraise as ->.
      unfold _database_data in Hdata. rewrite Hav in Hdata. simpl in Hdata.
      destruct (relations self) as [|first others]; [discriminate|].
      destruct (fetch_relation_data self !! first); discriminate.
Qed.

(** ** The document, whichever side arrives last *)

(** X16: the two data-changed handlers write the same document when they see the
    same data: if the [uris] of the database-created event is the [uris] the
    database relation holds, and the [url] of the NRF-available event is the
    URL the NRF library reports, then, their guards passing, each leaves at the
    configuration path the rendering of the first URI and that URL, from
    whatever state it starts. *)
Theorem data_changed_handlers_write_the_same_document
    (self : Charm) (s1 s2 : State) (uris url : string) (data : gmap string string) :
  can_connect self = true ->
  _nrf_relation_is_created self = true ->
  get_nrf_url self = Some url ->
  Str.truthy url = true ->
  _database_relation_is_created self = true ->
  _database_is_available self = true ->
  _database_data self = Return data ->
  data !! "uris" = Some uris ->
  exists u,
    split_comma_first (Some uris) = Return u
    /\ files (final (emit self (DatabaseCreatedEvent (Some uris)) s1)) !! config_path
       = Some (Template.render (Some url) (_pcf_hostname self) DATABASE_NAME u)
    /\ files (final (emit self (NRFAvailableEvent url) s2)) !! config_path
       = Some (Template.render (Some url) (_pcf_hostname self) DATABASE_NAME u).
Proof.
  intros Hcan Hnrf Hurl Htruthy Hdb Hav Hdata Huris.
  destruct (split_comma_first_returns uris) as [u Hu]. exists u.
  assert (Hnrfdata : _nrf_data_is_available self = true)
    by (unfold _nrf_data_is_available; rewrite Hurl; exact Htruthy).
  rewrite (database_created_success self s1 (Some uris) u) by assumption.
  rewrite (nrf_available_success self s2 url uris u data) by assumption.
  rewrite Hurl. simpl. rewrite !lookup_insert_eq. auto.
Qed.

Lemma data_changed_handlers_write_the_same_document_witness :
  exists u,
    split_comma_first (Some "http://6.6.6.6") = Return u
    /\ files (final (emit (related_charm true both_relations)
                       (DatabaseCreatedEvent (Some "http://6.6.6.6")) fresh_state))
         !! config_path
       = Some (Template.render (Some "http://1.1.1.1")
                 (_pcf_hostname (related_charm true both_relations))
                 DATABASE_NAME u)
    /\ files (final (emit (related_charm true both_relations)
                       (NRFAvailableEvent "http://1.1.1.1") written_state))
         !! config_path
       = Some (Template.render (Some "http://1.1.1.1")
                 (_pcf_hostname (related_charm true both_relations))
                 DATABASE_NAME u).
Proof.
  apply (data_changed_handlers_write_the_same_document
           (related_charm true both_relations) fresh_state written_state
           "http://6.6.6.6" "http://1.1.1.1"
           {[ "username" := "banana"; "password" := "pizza";
              "uris" := "http://6.6.6.6" ]});
    reflexivity.
Defined.

(** X17: whatever the database-created handler renders, it renders with a registry
    URL that is a string and not the empty one (never [None]), with the unit's
    hostname and with the database name [free5gc]. *)
Theorem database_created_renders_a_registry_url
    (self : Charm) (uris : option string) (s : State)
    (n : option string) (h d u : string) :
  In (Call_render n h d u) (calls (emit self (DatabaseCreatedEvent uris) s)) ->
  (exists url, n = Some url /\ url <> EmptyString /\ get_nrf_url self = Some url)
  /\ h = _pcf_hostname self
  /\ d = "free5gc"
  /\ split_comma_first uris = Return u.
Proof.
  intros Hin.
  pose proof (emit_guarded self (DatabaseCreatedEvent uris) s) as Hall.
  rewrite Forall_forall in Hall.
  apply list_elem_of_In in Hin. specialize (Hall _ Hin). simpl in Hall.
  destruct Hall as ((_ & _ & Hdata & Hn & Hsplit) & Hh & Hd).
  repeat split; try assumption.
  unfold _nrf_data_is_available in Hdata. rewrite <- Hn in Hdata.
  destruct n as [url|]; [|discriminate].
  exists url. repeat split; [|congruence].
  intros ->. discriminate.
Qed.

Lemma database_created_renders_a_registry_url_witness :
  (exists url,
     Some "http://1.1.1.1" = Some url /\ url <> EmptyString
     /\ get_nrf_url (related_charm true nrf_only) = Some url)
  /\ "pcf-operator.whatever.svc.cluster.local"
     = _pcf_hostname (related_charm true nrf_only)
  /\ "free5gc" = "free5gc"
  /\ split_comma_first (Some "1.2.3.4:1234,5.6.7.8:1111") = Return "1.2.3.4:1234".
Proof.
  apply (database_created_renders_a_registry_url (related_charm true nrf_only)
           (Some "1.2.3.4:1234,5.6.7.8:1111") fresh_state
           (Some "http://1.1.1.1") "pcf-operator.whatever.svc.cluster.local"
           "free5gc" "1.2.3.4:1234").
  vm_compute. left. reflexivity.
Defined.

(** ** Once Active *)

(** X18: after a handler run that returned and left the status Active, a
    pebble-ready or relation-joined event handled with the same collaborators
    returns, stays Active and leaves the whole state as it found it: the layer
    is combined into itself and the replan starts nothing. *)
Theorem active_state_is_stable (self : Charm) (event later : Event) (s : State) :
  value (emit self event s) = Return tt ->
  unit_status (final (emit self event s)) = ActiveStatus "" ->
  later = PebbleReadyEvent \/ later = RelationJoinedEvent ->
  emit self later (final (emit self event s))
  = Run (Return tt) (final (emit self event s)) (applied_calls self).
Proof.
  intros Hret Hact Hlater.
  assert (Hemit : forall s', emit self later s' = _on_pcf_pebble_ready self later s')
    by (intros s'; destruct Hlater as [-> | ->]; reflexivity).
  rewrite Hemit. revert Hret Hact.
  apply (emit_elim (fun r =>
    value r = Return tt ->
    unit_status (final r) = ActiveStatus "" ->
    _on_pcf_pebble_ready self later (final r)
    = Run (Return tt) (final r) (applied_calls self))); simpl; try discriminate.
  - intros st [[m ->]|[[m ->] _]]; discriminate.
  - intros Hcan Hdb Hnrf Hfile _ _.
    rewrite reconcile_success by (try assumption; rewrite applied_files; exact Hfile).
    rewrite applied_twice. reflexivity.
  - intros u n Hcan Hdb Hnrf _ _.
    rewrite reconcile_success
      by (try assumption; rewrite applied_files, with_document_lookup; eauto).
    rewrite applied_twice. reflexivity.
Qed.

Lemma active_state_is_stable_witness :
  emit (related_charm true both_relations) RelationJoinedEvent
    (final (emit (related_charm true both_relations)
              (DatabaseCreatedEvent (Some "1.2.3.4:1234")) fresh_state))
  = Run (Return tt)
        (final (emit (related_charm true both_relations)
                  (DatabaseCreatedEvent (Some "1.2.3.4:1234")) fresh_state))
        (applied_calls (related_charm true both_relations)).
Proof.
  apply (active_state_is_stable (related_charm true both_relations)
           (DatabaseCreatedEvent (Some "1.2.3.4:1234")) RelationJoinedEvent
           fresh_state);
    [vm_compute; reflexivity | vm_compute; reflexivity | right; reflexivity].
Defined.

(** ** The service's environment *)

(** X19: the environment of the [pcf] service has the same six variables for every
    charm, and only [POD_IP] depends on the charm: it is the unit's address as
    text, and every other variable has the same value whatever the charm. *)
Theorem environment_differs_in_pod_ip_only (self other : Charm) (name : string) :
  dom (_environment_variables self)
  = ({[ "GRPC_GO_LOG_VERBOSITY_LEVEL"; "GRPC_GO_LOG_SEVERITY_LEVEL"; "GRPC_TRACE";
        "GRPC_VERBOSITY"; "POD_IP"; "MANAGED_BY_CONFIG_POD" ]} : gset string)
  /\ _environment_variables self !! "POD_IP" = Some (IPv4Address_str (_pod_ip self))
  /\ (name <> "POD_IP" ->
      _environment_variables self !! name = _environment_variables other !! name)
  /\ environment <$> (services (_pebble_layer self) !! "pcf")
     = Some (_environment_variables self).
Proof.
  split; [|split; [|split]].
  - unfold _environment_variables. simpl. rewrite !dom_insert_L, dom_empty_L.
    set_solver.
  - reflexivity.
  - intros Hname. unfold _environment_variables. simpl.
    rewrite !(lookup_insert (M := gmap string)).
    repeat (case_decide; [try reflexivity; congruence|]).
    reflexivity.
  - reflexivity.
Qed.
